(** * samsa.brokers: the broker registry mirrored from ZooKeeper

    A shallow embedding of [src/samsa/brokers.py] (classes [BrokerMap] and
    [Broker]) together with the properties of the registry that the
    specification states.

    Python objects are mutable and shared by reference, so every [Broker]
    instance lives in a heap (a list indexed by reference) and the registry
    dictionary [BrokerMap.__brokers] maps keys to references.  Methods are
    computations in a state-and-exception monad over the whole [World]; a
    raised exception keeps the mutations performed before it was raised,
    exactly as in Python.

    The calls to [logger.info] are left out: they format their arguments
    and read no attribute but [id]. *)

From Stdlib Require Import ZArith String Ascii DecimalString DecimalZ DecimalPos.
From stdpp Require Import gmap strings list fin_maps.

Open Scope Z_scope.

(** ** Python builtins used by the module *)

Module Py.

(** Values that reach [int(...)] and dictionary lookups in this module:
    broker ids arrive either as integers or as the decimal strings that
    ZooKeeper uses for child names. *)
Inductive value :=
| Int (n : Z)
| Str (s : string).

(** [isspace] of the C locale, as used by [int] to skip padding. *)
Definition is_space (c : ascii) : bool :=
  let n := nat_of_ascii c in
  ((9 <=? n) && (n <=? 13) || (n =? 32))%nat.

Definition is_digit (c : ascii) : bool :=
  let n := nat_of_ascii c in
  ((48 <=? n) && (n <=? 57))%nat.

Definition digit_value (c : ascii) : Z := Z.of_nat (nat_of_ascii c) - 48.

Fixpoint skip_space (s : string) : string :=
  match s with
  | String c r => if is_space c then skip_space r else s
  | EmptyString => s
  end.

Fixpoint all_space (s : string) : bool :=
  match s with
  | String c r => is_space c && all_space r
  | EmptyString => true
  end.

(** Reads the longest prefix of decimal digits, accumulating its value,
    and returns what follows it. *)
Fixpoint read_digits (acc : Z) (s : string) : Z * string :=
  match s with
  | String c r =>
      if is_digit c then read_digits (10 * acc + digit_value c) r
      else (acc, s)
  | EmptyString => (acc, s)
  end.

(** [int(s)] for a string in base 10: optional surrounding whitespace, an
    optional sign, at least one digit.  [None] stands for [ValueError]. *)
Definition int_of_str (s : string) : option Z :=
  let s1 := skip_space s in
  let '(negative, s2) :=
    match s1 with
    | String "-" r => (true, r)
    | String "+" r => (false, r)
    | _ => (false, s1)
    end in
  match s2 with
  | String c _ =>
      if is_digit c then
        let '(n, rest) := read_digits 0 s2 in
        if all_space rest then Some (if negative then - n else n) else None
      else None
  | EmptyString => None
  end.

(** [int(v)]. *)
Definition int (v : value) : option Z :=
  match v with
  | Int n => Some n
  | Str s => int_of_str s
  end.

(** ['%s' % n] for an integer [n]. *)
Definition str (n : Z) : string := NilZero.string_of_int (Z.to_int n).

(** [s.split(sep)] for a one-character separator: the fields between
    the occurrences of [sep]; never the empty list. *)
Fixpoint split (sep : ascii) (s : string) : list string :=
  match s with
  | EmptyString => [EmptyString]
  | String c r =>
      if Ascii.eqb c sep then EmptyString :: split sep r
      else match split sep r with
           | field :: fields => String c field :: fields
           | [] => [String c EmptyString]
           end
  end.

Fixpoint contains_char (sep : ascii) (s : string) : bool :=
  match s with
  | EmptyString => false
  | String c r => Ascii.eqb c sep || contains_char sep r
  end.

#[global] Instance value_eq_dec : EqDecision value.
Proof. solve_decision. Defined.

Definition value_to_sum (v : value) : Z + string :=
  match v with Int n => inl n | Str s => inr s end.

Definition value_of_sum (x : Z + string) : value :=
  match x with inl n => Int n | inr s => Str s end.

#[global] Instance value_countable : Countable value.
Proof.
  refine (inj_countable' value_to_sum value_of_sum _).
  intros []; reflexivity.
Defined.

End Py.

(** ** Exceptions and outcomes *)

Inductive exn :=
| NoNodeException       (* zookeeper: the distinguished no-such-node condition *)
| ImproperlyConfigured  (* samsa.exceptions *)
| ValueError            (* builtin: bad literal for int, wrong unpack arity *)
| KeyError              (* builtin: missing dictionary key *)
| InvalidReference.     (* model only: a reference outside the heap *)

Inductive outcome (A : Type) :=
| Return (a : A)
| Raise (e : exn).
Arguments Return {A} a.
Arguments Raise {A} e.

#[global] Instance exn_eq_dec : EqDecision exn.
Proof. solve_decision. Defined.


(** ** The coordination service *)

Module ZooKeeper.

(** Who asked to be notified: the bound method passed as [watch=]. *)
Inductive watcher :=
| WatchBrokerMap            (* BrokerMap._configure of the registry *)
| WatchBroker (self : nat). (* Broker._configure of the object at this reference *)

#[global] Instance watcher_eq_dec : EqDecision watcher.
Proof. solve_decision. Defined.

Definition watcher_to_option (x : watcher) : option nat :=
  match x with WatchBrokerMap => None | WatchBroker r => Some r end.

Definition watcher_of_option (x : option nat) : watcher :=
  match x with None => WatchBrokerMap | Some r => WatchBroker r end.

#[global] Instance watcher_countable : Countable watcher.
Proof.
  refine (inj_countable' watcher_to_option watcher_of_option _).
  intros []; reflexivity.
Defined.

Inductive request :=
| GetChildren (path : string) (watch : watcher)
| Get (path : string) (watch : watcher).

Record znode := Znode { data : string; children : list string }.

(** Modelled from the spec: the ZooKeeper client is an external
    collaborator that is not among the sources.  It exposes
    [get_children(path, watch)] and [get(path, watch)], raises the
    distinguished no-such-node condition for an absent path, and its
    watches are one-shot: a change at a path notifies the watchers
    registered there and forgets them, so that a watcher hears of the next
    change only if it registers again.  A watch is left by a successful
    read only.  [requests] logs every call received, oldest first. *)
Record t := Make {
  nodes : gmap string znode;
  watches : gset (string * watcher);
  requests : list request
}.

Definition get_children (path : string) (watch : watcher) (zk : t)
  : option (list string) * t :=
  let log := requests zk ++ [GetChildren path watch] in
  match nodes zk !! path with
  | Some node =>
      (Some (children node),
       {| nodes := nodes zk;
          watches := {[ (path, watch) ]} ∪ watches zk;
          requests := log |})
  | None =>
      (None, {| nodes := nodes zk; watches := watches zk; requests := log |})
  end.

Definition get (path : string) (watch : watcher) (zk : t)
  : option string * t :=
  let log := requests zk ++ [Get path watch] in
  match nodes zk !! path with
  | Some node =>
      (Some (data node),
       {| nodes := nodes zk;
          watches := {[ (path, watch) ]} ∪ watches zk;
          requests := log |})
  | None =>
      (None, {| nodes := nodes zk; watches := watches zk; requests := log |})
  end.

(** The watchers to notify of a change at [path]. *)
Definition fired (path : string) (zk : t) : list watcher :=
  snd <$> elements (filter (λ pw, pw.1 = path) (watches zk)).

(** A change made by someone else: the node at [path] becomes [node]
    ([None] deletes it) and the watches on [path] are consumed. *)
Definition change (path : string) (node : option znode) (zk : t) : t :=
  {| nodes := match node with
              | Some n => <[path := n]> (nodes zk)
              | None => delete path (nodes zk)
              end;
     watches := filter (λ pw, pw.1 ≠ path) (watches zk);
     requests := requests zk |}.

End ZooKeeper.

(** ** Objects and the world they live in *)

(** Modelled from the spec: [samsa.utils.delayedconfig] is not among the
    sources.  The configuration state shared by the registry and by every
    broker: [Unconfigured -> Configuring -> Configured]. *)
Inductive ConfigurationState := Unconfigured | Configuring | Configured.

#[global] Instance ConfigurationState_eq_dec : EqDecision ConfigurationState.
Proof. solve_decision. Defined.

(** Modelled from the spec: [samsa.client.Client] is not among the sources;
    all that is used of it is that [Client(host, port)] builds a new
    object from the two values it is given. *)
Record Client := { client_host : option string; client_port : option Z }.

(** The attributes of a [Broker] instance.  [_Broker__client] is [None]
    while the attribute does not exist. *)
Record BrokerObject := {
  id : Z;
  _Broker__host : option string;
  _Broker__port : option Z;
  is_dead : bool;
  _Broker__client : option nat;
  broker_state : ConfigurationState
}.

Definition set__host (v : option string) (b : BrokerObject) : BrokerObject :=
  {| id := id b; _Broker__host := v; _Broker__port := _Broker__port b;
     is_dead := is_dead b; _Broker__client := _Broker__client b;
     broker_state := broker_state b |}.

Definition set__port (v : option Z) (b : BrokerObject) : BrokerObject :=
  {| id := id b; _Broker__host := _Broker__host b; _Broker__port := v;
     is_dead := is_dead b; _Broker__client := _Broker__client b;
     broker_state := broker_state b |}.

Definition set_is_dead (v : bool) (b : BrokerObject) : BrokerObject :=
  {| id := id b; _Broker__host := _Broker__host b;
     _Broker__port := _Broker__port b;
     is_dead := v; _Broker__client := _Broker__client b;
     broker_state := broker_state b |}.

Definition set__client (v : option nat) (b : BrokerObject) : BrokerObject :=
  {| id := id b; _Broker__host := _Broker__host b;
     _Broker__port := _Broker__port b;
     is_dead := is_dead b; _Broker__client := v;
     broker_state := broker_state b |}.

Definition set_broker_state (v : ConfigurationState) (b : BrokerObject)
  : BrokerObject :=
  {| id := id b; _Broker__host := _Broker__host b;
     _Broker__port := _Broker__port b;
     is_dead := is_dead b; _Broker__client := _Broker__client b;
     broker_state := v |}.

(** One cluster with its registry.  [heap] holds every [Broker] ever
    constructed, at the index that is its reference; [clients] likewise for
    [Client] objects. *)
Record World := {
  zookeeper : ZooKeeper.t;            (* cluster.zookeeper *)
  heap : list BrokerObject;
  _BrokerMap__brokers : gmap Py.value nat;
  map_state : ConfigurationState;     (* of the BrokerMap *)
  clients : list Client
}.

Definition set_zookeeper (v : ZooKeeper.t) (w : World) : World :=
  {| zookeeper := v; heap := heap w;
     _BrokerMap__brokers := _BrokerMap__brokers w;
     map_state := map_state w; clients := clients w |}.

Definition set_heap (v : list BrokerObject) (w : World) : World :=
  {| zookeeper := zookeeper w; heap := v;
     _BrokerMap__brokers := _BrokerMap__brokers w;
     map_state := map_state w; clients := clients w |}.

Definition set__brokers (v : gmap Py.value nat) (w : World) : World :=
  {| zookeeper := zookeeper w; heap := heap w;
     _BrokerMap__brokers := v;
     map_state := map_state w; clients := clients w |}.

Definition set_map_state (v : ConfigurationState) (w : World) : World :=
  {| zookeeper := zookeeper w; heap := heap w;
     _BrokerMap__brokers := _BrokerMap__brokers w;
     map_state := v; clients := clients w |}.

Definition set_clients (v : list Client) (w : World) : World :=
  {| zookeeper := zookeeper w; heap := heap w;
     _BrokerMap__brokers := _BrokerMap__brokers w;
     map_state := map_state w; clients := v |}.

(** ** Computations *)

Definition M (A : Type) : Type := World → outcome A * World.

Definition ret {A} (a : A) : M A := λ w, (Return a, w).

Definition raise {A} (e : exn) : M A := λ w, (Raise e, w).

Definition bind {A B} (m : M A) (k : A → M B) : M B :=
  λ w, match m w with
       | (Return a, w') => k a w'
       | (Raise e, w') => (Raise e, w')
       end.

Declare Scope py_scope.
Delimit Scope py_scope with py.
Notation "x <- c1 ;; c2" := (bind c1 (λ x, c2))
  (at level 100, c1 at next level, right associativity) : py_scope.
Notation "c1 ;; c2" := (bind c1 (λ _, c2))
  (at level 100, right associativity) : py_scope.
Open Scope py_scope.

(** [try: m  except e: handler]. *)
Definition try_except {A} (m : M A) (e : exn) (handler : M A) : M A :=
  λ w, match m w with
       | (Raise e', w') => if decide (e' = e) then handler w' else (Raise e', w')
       | r => r
       end.

(** [for x in l: s = body(x, s)]. *)
Fixpoint for_fold {A S} (l : list A) (body : A → S → M S) (s : S) : M S :=
  match l with
  | [] => ret s
  | x :: l' => s' <- body x s ;; for_fold l' body s'
  end.

Fixpoint for_each {A} (l : list A) (body : A → M unit) : M unit :=
  match l with
  | [] => ret tt
  | x :: l' => body x ;; for_each l' body
  end.

(** [map(int, l)]: the module is Python 2, where [map] returns a list, so
    the whole list is converted before the caller's loop starts, and the
    first bad literal raises. *)
Fixpoint map_int (l : list string) : M (list Z) :=
  match l with
  | [] => ret []
  | s :: l' =>
      match Py.int_of_str s with
      | Some n => ns <- map_int l' ;; ret (n :: ns)
      | None => raise ValueError
      end
  end.

(** Attribute access through a reference. *)
Definition load (r : nat) : M BrokerObject :=
  λ w, match heap w !! r with
       | Some b => (Return b, w)
       | None => (Raise InvalidReference, w)
       end.

Definition store (r : nat) (f : BrokerObject → BrokerObject) : M unit :=
  λ w, match heap w !! r with
       | Some b => (Return tt, set_heap (<[r := f b]> (heap w)) w)
       | None => (Raise InvalidReference, w)
       end.

Definition alloc (b : BrokerObject) : M nat :=
  λ w, (Return (length (heap w)), set_heap (heap w ++ [b]) w).

Definition new_client (h : option string) (p : option Z) : M nat :=
  λ w, (Return (length (clients w)),
        set_clients (clients w ++ [{| client_host := h; client_port := p |}]) w).

(** The registry dictionary. *)
Definition dict_contains (k : Py.value) : M bool :=
  λ w, (Return (bool_decide (is_Some (_BrokerMap__brokers w !! k))), w).

Definition dict_setitem (k : Py.value) (r : nat) : M unit :=
  λ w, (Return tt, set__brokers (<[k := r]> (_BrokerMap__brokers w)) w).

Definition dict_getitem (k : Py.value) : M nat :=
  λ w, match _BrokerMap__brokers w !! k with
       | Some r => (Return r, w)
       | None => (Raise KeyError, w)
       end.

Definition dict_delitem (k : Py.value) : M unit :=
  λ w, match _BrokerMap__brokers w !! k with
       | Some _ => (Return tt, set__brokers (delete k (_BrokerMap__brokers w)) w)
       | None => (Raise KeyError, w)
       end.

Definition dict_keys : M (gset Py.value) :=
  λ w, (Return (dom (_BrokerMap__brokers w)), w).

(** Calls on [cluster.zookeeper]. *)
Definition zk_get_children (path : string) (watch : ZooKeeper.watcher)
  : M (list string) :=
  λ w, match ZooKeeper.get_children path watch (zookeeper w) with
       | (Some l, zk) => (Return l, set_zookeeper zk w)
       | (None, zk) => (Raise NoNodeException, set_zookeeper zk w)
       end.

Definition zk_get (path : string) (watch : ZooKeeper.watcher) : M string :=
  λ w, match ZooKeeper.get path watch (zookeeper w) with
       | (Some d, zk) => (Return d, set_zookeeper zk w)
       | (None, zk) => (Raise NoNodeException, set_zookeeper zk w)
       end.

(** Runs [m]; if it raises, runs [cleanup] and raises the same exception. *)
Definition on_error {A} (m : M A) (cleanup : M unit) : M A :=
  λ w, match m w with
       | (Raise e, w') => (Raise e, snd (cleanup w'))
       | r => r
       end.

(** Modelled from the spec: the decorator [requires_configuration] of
    [samsa.utils.delayedconfig] is not among the sources.  An accessor first
    makes sure that [_configure] has run once: unless the entity is
    [Configured] it runs one configuration pass, after which the entity is
    [Configured]; a pass that raises hands the error to the caller and
    leaves the state as it was before the attempt.  Then the accessor's
    body runs. *)
Definition requires_configuration {A}
    (get_state : M ConfigurationState)
    (set_state : ConfigurationState → M unit)
    (_configure : M unit) (method : M A) : M A :=
  st <- get_state ;;
  match st with
  | Configured => method
  | _ =>
      set_state Configuring ;;
      on_error _configure (set_state st) ;;
      set_state Configured ;;
      method
  end.

(** ** class Broker *)

Module Broker.

(** [Broker(cluster, id)]: returns the reference of the new object.  When
    [int(id)] raises, no reference to the object under construction is
    left, so none is allocated. *)
Definition __init__ (id : Py.value) : M nat :=
  match Py.int id with
  | Some n =>
      alloc {| id := n;
               _Broker__host := None;
               _Broker__port := None;
               is_dead := false;
               _Broker__client := None;
               broker_state := Unconfigured |}
  | None => raise ValueError
  end.

Definition _configure (self : nat) : M unit :=
  b <- load self ;;
  (* node = '/brokers/ids/%s' % self.id *)
  let node := ("/brokers/ids/" +:+ Py.str (id b))%string in
  (* data, stat = self.cluster.zookeeper.get(node, watch=self._configure) *)
  data <- zk_get node (ZooKeeper.WatchBroker self) ;;
  (* creator, self.__host, port = data.split(':') *)
  match Py.split ":" data with
  | [creator; host; port] =>
      store self (set__host (Some host)) ;;
      (* self.__port = int(port) *)
      match Py.int_of_str port with
      | Some p => store self (set__port (Some p))
      | None => raise ValueError
      end
  | _ => raise ValueError
  end.

(** [@requires_configuration] on a method of the broker [self]. *)
Definition configured (self : nat) {A} (method : M A) : M A :=
  requires_configuration
    (b <- load self ;; ret (broker_state b))
    (λ st, store self (set_broker_state st))
    (_configure self) method.

Definition host (self : nat) : M (option string) :=
  configured self (b <- load self ;; ret (_Broker__host b)).

Definition port (self : nat) : M (option Z) :=
  configured self (b <- load self ;; ret (_Broker__port b)).

Definition client (self : nat) : M nat :=
  b <- load self ;;
  (* try: return self.__client *)
  match _Broker__client b with
  | Some c => ret c
  | None =>
      (* except AttributeError: self.__client = Client(self.host, self.port) *)
      h <- host self ;;
      p <- port self ;;
      c <- new_client h p ;;
      store self (set__client (Some c)) ;;
      (* return self.__client *)
      ret c
  end.

End Broker.

(** ** class BrokerMap *)

Module BrokerMap.

Definition _configure : M unit :=
  let path := "/brokers/ids"%string in
  broker_ids <-
    try_except (zk_get_children path ZooKeeper.WatchBrokerMap)
      NoNodeException (raise ImproperlyConfigured) ;;
  ids <- map_int broker_ids ;;
  (* alive = set(); for broker_id in map(int, broker_ids): ... *)
  alive <-
    for_fold ids (λ broker_id (alive : gset Py.value),
      (* if broker_id not in self.__brokers: *)
      present <- dict_contains (Py.Int broker_id) ;;
      (if present then ret tt
       else
         broker <- Broker.__init__ (Py.Int broker_id) ;;
         (* self.__brokers[broker.id] = broker *)
         b <- load broker ;;
         dict_setitem (Py.Int (id b)) broker) ;;
      (* alive.add(broker_id) *)
      ret ({[ Py.Int broker_id ]} ∪ alive)) ∅ ;;
  (* dead = set(self.__brokers.keys()) - alive *)
  keys <- dict_keys ;;
  let dead := keys ∖ alive in
  for_each (elements dead) (λ broker_id,
    broker <- dict_getitem broker_id ;;
    (* broker.is_dead = True *)
    store broker (set_is_dead true) ;;
    (* del self.__brokers[broker.id] *)
    b <- load broker ;;
    dict_delitem (Py.Int (id b))).

(** [@requires_configuration] on a method of the registry. *)
Definition configured {A} (method : M A) : M A :=
  requires_configuration
    (λ w, (Return (map_state w), w))
    (λ st w, (Return tt, set_map_state st w))
    _configure method.

Definition __len__ : M nat :=
  configured (λ w, (Return (size (_BrokerMap__brokers w)), w)).

Definition __iter__ : M (list Py.value) :=
  configured (λ w, (Return (fst <$> map_to_list (_BrokerMap__brokers w)), w)).

Definition get (id : Py.value) : M nat :=
  configured (dict_getitem id).

Definition __getitem__ (id : Py.value) : M nat := get id.

Definition keys : M (list Py.value) :=
  configured (λ w, (Return (fst <$> map_to_list (_BrokerMap__brokers w)), w)).

Definition values : M (list nat) :=
  configured (λ w, (Return (snd <$> map_to_list (_BrokerMap__brokers w)), w)).

Definition items : M (list (Py.value * nat)) :=
  configured (λ w, (Return (map_to_list (_BrokerMap__brokers w)), w)).

End BrokerMap.

(** ** Watch delivery and histories *)

(** ZooKeeper calls the watcher it was given; what the callback raises
    stays in the client's delivery thread. *)
Definition deliver (x : ZooKeeper.watcher) (w : World) : World :=
  match x with
  | ZooKeeper.WatchBrokerMap => snd (BrokerMap._configure w)
  | ZooKeeper.WatchBroker self => snd (Broker._configure self w)
  end.

(** Somebody changes the node at [path]; the watchers registered there are
    notified once. *)
Definition remote_change (path : string) (node : option ZooKeeper.znode)
    (w : World) : World :=
  foldl (λ w x, deliver x w)
    (set_zookeeper (ZooKeeper.change path node (zookeeper w)) w)
    (ZooKeeper.fired path (zookeeper w)).

(** The node at [path] changes twice in a row. *)
Definition two_changes (path : string) (z1 z2 : ZooKeeper.znode) (w : World)
  : World :=
  remote_change path (Some z2) (remote_change path (Some z1) w).

(** A fresh cluster handle: nothing constructed yet but the registry. *)
Definition new_world (zk : ZooKeeper.t) : World :=
  {| zookeeper := zk; heap := []; _BrokerMap__brokers := ∅;
     map_state := Unconfigured; clients := [] |}.

(** Things that can happen to a world, one after the other. *)
Inductive event :=
| ReadHost (r : nat)                 (* broker.host *)
| ReadPort (r : nat)                 (* broker.port *)
| ReadClient (r : nat)               (* broker.client *)
| ReadLen                            (* len(brokers) *)
| Refresh (x : ZooKeeper.watcher)    (* a pass of the watcher's _configure *)
| RemoteChange (path : string) (node : option ZooKeeper.znode)
| MarkDead (r : nat).                (* broker.is_dead = True *)

Definition happen (e : event) (w : World) : World :=
  match e with
  | ReadHost r => snd (Broker.host r w)
  | ReadPort r => snd (Broker.port r w)
  | ReadClient r => snd (Broker.client r w)
  | ReadLen => snd (BrokerMap.__len__ w)
  | Refresh x => deliver x w
  | RemoteChange path node => remote_change path node w
  | MarkDead r => snd (store r (set_is_dead true) w)
  end.

Definition run (es : list event) (w : World) : World :=
  foldl (λ w e, happen e w) w es.

(** ** Vocabulary of the statements *)

(** What [Broker.__init__] builds for the id [n]. *)
Definition fresh_broker (n : Z) : BrokerObject :=
  {| id := n; _Broker__host := None; _Broker__port := None;
     is_dead := false; _Broker__client := None;
     broker_state := Unconfigured |}.

(** The registry files every broker under its own id, and every reference
    it holds is to an object of the heap. *)
Definition registry_wf (w : World) : Prop :=
  map_Forall (λ k r, (λ b, Py.Int (id b)) <$> heap w !! r = Some k)
    (_BrokerMap__brokers w).

#[global] Instance registry_wf_dec w : Decision (registry_wf w).
Proof. unfold registry_wf. apply _. Defined.

(** The ids that a list of child names denotes, when all of them do. *)
Definition ids_of (names : list string) : option (list Z) :=
  mapM Py.int_of_str names.

(** The world right after the registry has asked for the children. *)
Definition asked_children (w : World) : World :=
  set_zookeeper
    (snd (ZooKeeper.get_children "/brokers/ids" ZooKeeper.WatchBrokerMap
            (zookeeper w))) w.

(** What the first loop of [BrokerMap._configure] leaves behind. *)
Record added (ids : list Z) (w w' : World) : Prop := {
  added_zookeeper : zookeeper w' = zookeeper w;
  added_clients : clients w' = clients w;
  added_map_state : map_state w' = map_state w;
  added_heap : ∃ new, heap w' = heap w ++ new;
  added_old : ∀ k r, _BrokerMap__brokers w !! k = Some r →
                     _BrokerMap__brokers w' !! k = Some r;
  added_new : ∀ n, n ∈ ids → _BrokerMap__brokers w !! Py.Int n = None →
                   ∃ r, _BrokerMap__brokers w' !! Py.Int n = Some r ∧
                        (length (heap w) ≤ r)%nat ∧
                        heap w' !! r = Some (fresh_broker n);
  added_only : ∀ k, _BrokerMap__brokers w !! k = None →
                    k ∉ Py.Int <$> ids → _BrokerMap__brokers w' !! k = None;
  added_wf : registry_wf w'
}.

(** What the second loop of [BrokerMap._configure] leaves behind. *)
Record removed (l : list Py.value) (w w' : World) : Prop := {
  removed_zookeeper : zookeeper w' = zookeeper w;
  removed_clients : clients w' = clients w;
  removed_map_state : map_state w' = map_state w;
  removed_gone : ∀ k, k ∈ l → _BrokerMap__brokers w' !! k = None;
  removed_kept : ∀ k, k ∉ l →
                      _BrokerMap__brokers w' !! k = _BrokerMap__brokers w !! k;
  removed_dead : ∀ k r b, k ∈ l → _BrokerMap__brokers w !! k = Some r →
                          heap w !! r = Some b →
                          heap w' !! r = Some (set_is_dead true b);
  removed_others : ∀ r, (∀ k, k ∈ l → _BrokerMap__brokers w !! k ≠ Some r) →
                        heap w' !! r = heap w !! r;
  removed_wf : registry_wf w'
}.

(** What a pass that runs to its end leaves behind, when the children
    denote [ids]. *)
Record pass (ids : list Z) (w w' : World) : Prop := {
  pass_zookeeper : zookeeper w' = zookeeper (asked_children w);
  pass_clients : clients w' = clients w;
  pass_map_state : map_state w' = map_state w;
  pass_dom : dom (_BrokerMap__brokers w') = list_to_set (Py.Int <$> ids);
  pass_new : ∀ n, n ∈ ids → _BrokerMap__brokers w !! Py.Int n = None →
                  ∃ r, _BrokerMap__brokers w' !! Py.Int n = Some r ∧
                       heap w !! r = None ∧
                       heap w' !! r = Some (fresh_broker n);
  pass_removed : ∀ k r b, _BrokerMap__brokers w !! k = Some r →
                          heap w !! r = Some b →
                          k ∉ Py.Int <$> ids →
                          _BrokerMap__brokers w' !! k = None ∧
                          heap w' !! r = Some (set_is_dead true b);
  pass_kept : ∀ k r, _BrokerMap__brokers w !! k = Some r →
                     k ∈ Py.Int <$> ids →
                     _BrokerMap__brokers w' !! k = Some r ∧
                     heap w' !! r = heap w !! r;
  pass_heap : ∀ r b, heap w !! r = Some b →
                     heap w' !! r = Some b ∨
                     heap w' !! r = Some (set_is_dead true b);
  pass_wf : registry_wf w'
}.

(** What [Broker._configure] may touch, whatever the outcome: the
    coordination service sees one [get]; of the object only host and port
    can differ; nothing else in the world moves. *)
Record configured_broker (self : nat) (b : BrokerObject) (w w' : World)
  : Prop := {
  cb_zookeeper :
    zookeeper w' =
    snd (ZooKeeper.get ("/brokers/ids/" +:+ Py.str (id b))
           (ZooKeeper.WatchBroker self) (zookeeper w));
  cb_brokers : _BrokerMap__brokers w' = _BrokerMap__brokers w;
  cb_map_state : map_state w' = map_state w;
  cb_clients : clients w' = clients w;
  cb_heap : ∃ b', heap w' = <[self := b']> (heap w) ∧
                  id b' = id b ∧ is_dead b' = is_dead b ∧
                  _Broker__client b' = _Broker__client b ∧
                  broker_state b' = broker_state b
}.

(** What [BrokerMap._configure] may touch, whatever the outcome: the
    coordination service sees one [get_children]; an object that existed
    is unchanged or marked dead. *)
Record configured_map (w w' : World) : Prop := {
  cm_zookeeper : zookeeper w' = zookeeper (asked_children w);
  cm_clients : clients w' = clients w;
  cm_map_state : map_state w' = map_state w;
  cm_heap : ∀ r b, heap w !! r = Some b →
                   heap w' !! r = Some b ∨
                   heap w' !! r = Some (set_is_dead true b);
  cm_wf : registry_wf w'
}.

(** What the delivery of a watch event may touch. *)
Record delivered (w w' : World) : Prop := {
  dl_wf : registry_wf w';
  dl_nodes : ZooKeeper.nodes (zookeeper w') = ZooKeeper.nodes (zookeeper w);
  dl_watches : ZooKeeper.watches (zookeeper w) ⊆ ZooKeeper.watches (zookeeper w');
  dl_clients : clients w' = clients w;
  dl_map_state : map_state w' = map_state w;
  dl_heap : ∀ r b, heap w !! r = Some b →
                   ∃ b', heap w' !! r = Some b' ∧ id b' = id b ∧
                         _Broker__client b' = _Broker__client b ∧
                         broker_state b' = broker_state b
}.

(** A computation that only reads. *)
Definition read_only {A} (m : M A) : Prop := ∀ w, snd (m w) = w.

(** Every object is still there, with its id and its client attribute. *)
Definition keeps_objects (w w' : World) : Prop :=
  ∀ r b, heap w !! r = Some b →
         ∃ b', heap w' !! r = Some b' ∧ id b' = id b ∧
               _Broker__client b' = _Broker__client b.

(** A client attribute that is set stays as it is. *)
Definition keeps_clients (w w' : World) : Prop :=
  ∀ r b c, heap w !! r = Some b → _Broker__client b = Some c →
           ∃ b', heap w' !! r = Some b' ∧ _Broker__client b' = Some c.

(** What configuring or reading a broker may touch. *)
Record touches (w w' : World) : Prop := {
  t_brokers : _BrokerMap__brokers w' = _BrokerMap__brokers w;
  t_clients : clients w' = clients w;
  t_heap : keeps_objects w w'
}.

(** The number that a string of decimal digits denotes, most significant
    digit first, continuing from [acc]. *)
Fixpoint decimal_value (acc : Z) (d : Decimal.uint) : Z :=
  match d with
  | Decimal.Nil => acc
  | Decimal.D0 d => decimal_value (10 * acc + 0) d
  | Decimal.D1 d => decimal_value (10 * acc + 1) d
  | Decimal.D2 d => decimal_value (10 * acc + 2) d
  | Decimal.D3 d => decimal_value (10 * acc + 3) d
  | Decimal.D4 d => decimal_value (10 * acc + 4) d
  | Decimal.D5 d => decimal_value (10 * acc + 5) d
  | Decimal.D6 d => decimal_value (10 * acc + 6) d
  | Decimal.D7 d => decimal_value (10 * acc + 7) d
  | Decimal.D8 d => decimal_value (10 * acc + 8) d
  | Decimal.D9 d => decimal_value (10 * acc + 9) d
  end.

(** ** A small cluster to run the code on *)

(** Brokers 1 and 2 are registered; broker 2 announced a port that is not
    a number. *)
Definition example_zookeeper : ZooKeeper.t :=
  ZooKeeper.Make
    (<["/brokers/ids" := ZooKeeper.Znode "" ["1"; "2"]]>
       (<["/brokers/ids/1" := ZooKeeper.Znode "7:10.0.0.5:9092" []]>
          (<["/brokers/ids/2" := ZooKeeper.Znode "7:10.0.0.6:http" []]> ∅)))
    ∅ [].

(** A coordination service in which Kafka never registered. *)
Definition empty_zookeeper : ZooKeeper.t := ZooKeeper.Make ∅ ∅ [].

(** The registry after its first use: both brokers known, none fetched. *)
Definition example_world : World :=
  snd (BrokerMap.__len__ (new_world example_zookeeper)).

(** ... and after broker 1 (at reference 0) has been read once. *)
Definition example_world_read : World :=
  snd (Broker.host 0 example_world).

(** Broker 1 then announces a value whose port field is not a number. *)
Definition example_world_bad_port : World :=
  set_zookeeper
    (ZooKeeper.change "/brokers/ids/1"
       (Some (ZooKeeper.Znode "7:10.0.0.9:http" []))
       (zookeeper example_world_read))
    example_world_read.

(** Broker 1 goes away and broker 3 arrives; the registry has not run its
    pass yet. *)
Definition example_world_changed : World :=
  set_zookeeper
    (ZooKeeper.change "/brokers/ids"
       (Some (ZooKeeper.Znode "" ["2"; "3"]))
       (zookeeper example_world))
    example_world.

(** After broker 1 has been read: its address changes, then it leaves the
    cluster, and its host is read once more. *)
Definition example_events : list event :=
  [ RemoteChange "/brokers/ids/1"
      (Some (ZooKeeper.Znode "7:10.0.0.9:9093" []));
    RemoteChange "/brokers/ids" (Some (ZooKeeper.Znode "" ["2"]));
    ReadHost 0 ].

(** ** More worlds to run the code on *)

(** A child of /brokers/ids whose name is not a number. *)
Definition example_world_bad_child : World :=
  set_zookeeper
    (ZooKeeper.change "/brokers/ids"
       (Some (ZooKeeper.Znode "" ["2"; "three"]))
       (zookeeper example_world))
    example_world.

(** Broker 1 has deregistered: its node is gone. *)
Definition example_world_no_node : World :=
  set_zookeeper
    (ZooKeeper.change "/brokers/ids/1" None (zookeeper example_world))
    example_world.

(** Broker 1 announces a value with a field too many. *)
Definition example_world_bad_arity : World :=
  set_zookeeper
    (ZooKeeper.change "/brokers/ids/1"
       (Some (ZooKeeper.Znode "7:10.0.0.5:9092:extra" []))
       (zookeeper example_world))
    example_world.

(** The registry has been configured and broker 1 read; then broker 1
    leaves and, later, registers again. *)
Definition example_world_left : World :=
  set_zookeeper
    (ZooKeeper.change "/brokers/ids"
       (Some (ZooKeeper.Znode "" ["2"]))
       (zookeeper example_world_read))
    example_world_read.

(** ** More vocabulary *)

(** Every object is still there, as dead or alive as it was. *)
Definition keeps_liveness (w w' : World) : Prop :=
  ∀ r b, heap w !! r = Some b →
         ∃ b', heap w' !! r = Some b' ∧ is_dead b' = is_dead b.

(** Every dead object is still there, and dead. *)
Definition keeps_dead (w w' : World) : Prop :=
  ∀ r b, heap w !! r = Some b → is_dead b = true →
         ∃ b', heap w' !! r = Some b' ∧ is_dead b' = true.

(** Only the registry is to be notified of what happens at [path]. *)
Definition registry_watches_only (path : string) (zk : ZooKeeper.t) : Prop :=
  Forall (λ x, x = ZooKeeper.WatchBrokerMap) (ZooKeeper.fired path zk).

#[global] Instance registry_watches_only_dec path zk :
  Decision (registry_watches_only path zk).
Proof. unfold registry_watches_only. apply _. Defined.

(** Every broker has deregistered, the path itself is still there. *)
Definition example_world_emptied : World :=
  set_zookeeper
    (ZooKeeper.change "/brokers/ids"
       (Some (ZooKeeper.Znode "" []))
       (zookeeper example_world))
    example_world.

(** ** A path that goes away and comes back *)

(** With the registry configured and broker 1 read, /brokers/ids is
    deleted, and later created again with the children 2 and 3. *)
Definition example_world_root_deleted : World :=
  remote_change "/brokers/ids" None example_world_read.

Definition example_world_root_recreated : World :=
  remote_change "/brokers/ids" (Some (ZooKeeper.Znode "" ["2"; "3"]))
    example_world_root_deleted.

(** Likewise the node of broker 1 is deleted, and later created again
    with another address. *)
Definition example_world_node_deleted : World :=
  remote_change "/brokers/ids/1" None example_world_read.

Definition example_world_node_recreated : World :=
  remote_change "/brokers/ids/1"
    (Some (ZooKeeper.Znode "7:10.0.0.9:9093" []))
    example_world_node_deleted.

(** * Properties *)

(** ** The builtins *)

Section Builtins.

Example int_padded : Py.int_of_str " +42 " = Some 42.
Proof. reflexivity. Qed.

Example int_negative : Py.int_of_str "-7" = Some (-7).
Proof. reflexivity. Qed.

Example int_sign_apart : Py.int_of_str "- 7" = None.
Proof. reflexivity. Qed.

Example int_empty : Py.int_of_str "" = None.
Proof. reflexivity. Qed.

Example int_trailing : Py.int_of_str "12x" = None.
Proof. reflexivity. Qed.

Example split_value :
  Py.split ":" "7:10.0.0.5:9092" = ["7"; "10.0.0.5"; "9092"]%string.
Proof. reflexivity. Qed.

Example split_empty : Py.split ":" "" = [""]%string.
Proof. reflexivity. Qed.

Example split_trailing : Py.split ":" "a::" = ["a"; ""; ""]%string.
Proof. reflexivity. Qed.

Example str_negative : Py.str (-15) = "-15"%string.
Proof. reflexivity. Qed.

Lemma is_space_not_colon c : Py.is_space c = true → Ascii.eqb c ":" = false.
Proof.
  intros H. destruct (Ascii.eqb_spec c ":"%char) as [->|]; [|done].
  vm_compute in H. discriminate.
Qed.

Lemma is_digit_not_colon c : Py.is_digit c = true → Ascii.eqb c ":" = false.
Proof.
  intros H. destruct (Ascii.eqb_spec c ":"%char) as [->|]; [|done].
  vm_compute in H. discriminate.
Qed.

Lemma all_space_no_colon s :
  Py.all_space s = true → Py.contains_char ":" s = false.
Proof.
  induction s as [|c s IH]; simpl; [done|].
  intros [Hc Hs]%andb_true_iff.
  by rewrite (is_space_not_colon c Hc), IH.
Qed.

Lemma read_digits_no_colon s : ∀ acc n rest,
  Py.read_digits acc s = (n, rest) →
  Py.contains_char ":" rest = false →
  Py.contains_char ":" s = false.
Proof.
  induction s as [|c s IH]; simpl; intros acc n rest H Hrest.
  - by inversion H; subst.
  - destruct (Py.is_digit c) eqn:Hd.
    + rewrite (is_digit_not_colon c Hd). simpl. eauto.
    + inversion H; subst. exact Hrest.
Qed.

Lemma skip_space_no_colon s :
  Py.contains_char ":" (Py.skip_space s) = false →
  Py.contains_char ":" s = false.
Proof.
  induction s as [|c s IH]; simpl; [done|].
  destruct (Py.is_space c) eqn:Hc; [|done].
  intros H. by rewrite (is_space_not_colon c Hc), IH.
Qed.

(** A string that [int] accepts holds no colon. *)
Lemma int_of_str_no_colon s n :
  Py.int_of_str s = Some n → Py.contains_char ":" s = false.
Proof.
  unfold Py.int_of_str. intros H. apply skip_space_no_colon.
  assert (Hdigits : ∀ s2 neg,
    match s2 with
    | String c _ =>
        if Py.is_digit c then
          let '(n, rest) := Py.read_digits 0 s2 in
          if Py.all_space rest then Some (if neg : bool then - n else n)
          else None
        else None
    | EmptyString => None
    end = Some n → Py.contains_char ":" s2 = false).
  { intros s2 neg Hs2. destruct s2 as [|c r]; [done|].
    destruct (Py.is_digit c); [|done].
    destruct (Py.read_digits 0 (String c r)) as [m rest] eqn:Hr.
    destruct (Py.all_space rest) eqn:Hsp; [|done].
    eapply read_digits_no_colon; [exact Hr|].
    by apply all_space_no_colon. }
  destruct (Py.skip_space s) as [|c r] eqn:Hs; [done|].
  destruct (Ascii.eqb_spec c "-"%char) as [->|Hm].
  { simpl. by apply (Hdigits r true). }
  destruct (Ascii.eqb_spec c "+"%char) as [->|Hp].
  { simpl. by apply (Hdigits r false). }
  apply (Hdigits (String c r) false).
  revert H. clear -Hm Hp.
  destruct c as [[] [] [] [] [] [] [] []]; try done.
Qed.

Lemma split_no_sep sep s :
  Py.contains_char sep s = false → Py.split sep s = [s].
Proof.
  induction s as [|c s IH]; simpl; [done|].
  intros [Hc Hs]%orb_false_iff. by rewrite Hc, IH.
Qed.

Lemma split_app sep a r :
  Py.contains_char sep a = false →
  Py.split sep (a +:+ String sep r) = a :: Py.split sep r.
Proof.
  induction a as [|c a IH]; simpl.
  - intros _. by rewrite Ascii.eqb_refl.
  - intros [Hc Hs]%orb_false_iff. by rewrite Hc, IH.
Qed.

(** The fields of [creator:host:port]. *)
Lemma split_three creator host port :
  Py.contains_char ":" creator = false →
  Py.contains_char ":" host = false →
  Py.contains_char ":" port = false →
  Py.split ":" (creator +:+ ":" +:+ host +:+ ":" +:+ port)
  = [creator; host; port].
Proof.
  intros Hc Hh Hp.
  change (":" +:+ host +:+ ":" +:+ port)%string
    with (String ":" (host +:+ String ":" port)).
  rewrite (split_app _ _ _ Hc), (split_app _ _ _ Hh).
  by rewrite (split_no_sep _ _ Hp).
Qed.

Lemma read_digits_uint d : ∀ acc,
  Py.read_digits acc (NilEmpty.string_of_uint d)
  = (decimal_value acc d, EmptyString).
Proof.
  induction d; intros acc; simpl; try done; apply IHd.
Qed.

Lemma decimal_value_pos d : ∀ acc,
  decimal_value (Z.pos acc) d = Z.pos (Pos.of_uint_acc d acc).
Proof.
  induction d; intros acc; simpl; try done; rewrite <- IHd; f_equal; lia.
Qed.

Lemma decimal_value_0 d : decimal_value 0 d = Z.of_N (Pos.of_uint d).
Proof.
  induction d; simpl; try done; apply (decimal_value_pos d _).
Qed.

Lemma int_of_str_uint d :
  d ≠ Decimal.Nil →
  Py.int_of_str (NilEmpty.string_of_uint d) = Some (decimal_value 0 d) ∧
  Py.int_of_str (String "-" (NilEmpty.string_of_uint d))
  = Some (- decimal_value 0 d).
Proof.
  intros Hd. destruct d; [done|..]; unfold Py.int_of_str; simpl;
    rewrite read_digits_uint; simpl; done.
Qed.

(** [int] reads back what ['%s'] prints. *)
Lemma int_of_str_str n : Py.int_of_str (Py.str n) = Some n.
Proof.
  unfold Py.str. destruct n as [|p|p]; simpl; [reflexivity|..];
    unfold NilZero.string_of_uint;
    pose proof (DecimalPos.Unsigned.to_uint_nonnil p) as Hp;
    destruct (int_of_str_uint (Pos.to_uint p) Hp) as [Hpos Hneg];
    destruct (Pos.to_uint p) eqn:E; try done;
    rewrite ?Hpos, ?Hneg, decimal_value_0, <- E, DecimalPos.Unsigned.of_to;
    done.
Qed.

End Builtins.

(** ** One pass of [Broker._configure] *)

Section BrokerConfigure.

Variables (w : World) (self : nat) (b : BrokerObject).
Hypothesis Hself : heap w !! self = Some b.

Let node := ("/brokers/ids/" +:+ Py.str (id b))%string.
Let asked : World :=
  set_zookeeper
    (snd (ZooKeeper.get node (ZooKeeper.WatchBroker self) (zookeeper w))) w.

Lemma Broker_configure_no_node :
  ZooKeeper.nodes (zookeeper w) !! node = None →
  Broker._configure self w = (Raise NoNodeException, asked).
Proof using Hself.
  intros Hn. unfold Broker._configure, bind, load, zk_get, asked.
  rewrite Hself. fold node. unfold ZooKeeper.get. by rewrite Hn.
Qed.

Lemma Broker_configure_fetch z :
  ZooKeeper.nodes (zookeeper w) !! node = Some z →
  Broker._configure self w =
  match Py.split ":" (ZooKeeper.data z) with
  | [creator; host; port] =>
      match Py.int_of_str port with
      | Some p =>
          (Return tt,
           set_heap (<[self := set__port (Some p) (set__host (Some host) b)]>
                       (heap w)) asked)
      | None =>
          (Raise ValueError,
           set_heap (<[self := set__host (Some host) b]> (heap w)) asked)
      end
  | _ => (Raise ValueError, asked)
  end.
Proof using Hself.
  intros Hn. unfold Broker._configure, bind, load, zk_get, asked.
  rewrite Hself. fold node. unfold ZooKeeper.get. rewrite Hn. simpl.
  destruct (Py.split ":" (ZooKeeper.data z)) as [|creator [|host [|port [|]]]];
    try reflexivity.
  unfold store at 1. simpl. rewrite Hself.
  destruct (Py.int_of_str port) as [p|]; [|reflexivity].
  unfold store. simpl.
  rewrite list_lookup_insert_eq by (by eapply lookup_lt_Some).
  by rewrite list_insert_insert_eq.
Qed.

End BrokerConfigure.

(** ** Parsing the node value *)

(** C5. For a node value [creator:host:port] whose port field [int]
    accepts, [Broker._configure] returns normally, sets [host] to the second
    field and [port] to the integer value of the third, and touches nothing
    else of the object: the creator field has no influence on the result. *)
Theorem Broker_configure_parses_host_port
    (w : World) (self : nat) (b : BrokerObject) (z : ZooKeeper.znode)
    (creator host port : string) (p : Z) :
  heap w !! self = Some b →
  ZooKeeper.nodes (zookeeper w) !! ("/brokers/ids/" +:+ Py.str (id b))%string
    = Some z →
  ZooKeeper.data z = (creator +:+ ":" +:+ host +:+ ":" +:+ port)%string →
  Py.contains_char ":" creator = false →
  Py.contains_char ":" host = false →
  Py.int_of_str port = Some p →
  ∃ w',
    Broker._configure self w = (Return tt, w') ∧
    heap w' = <[self := set__port (Some p) (set__host (Some host) b)]> (heap w) ∧
    (_Broker__host <$> heap w' !! self) = Some (Some host) ∧
    (_Broker__port <$> heap w' !! self) = Some (Some p).
Proof.
  intros Hself Hnode Hdata Hc Hh Hp.
  rewrite (Broker_configure_fetch w self b Hself z Hnode), Hdata.
  rewrite (split_three creator host port Hc Hh (int_of_str_no_colon _ _ Hp)).
  rewrite Hp. eexists. split; [reflexivity|]. simpl.
  rewrite list_lookup_insert_eq by (by eapply lookup_lt_Some).
  done.
Qed.

Lemma Broker_configure_parses_host_port_witness :
  ∃ w',
    Broker._configure 0 example_world = (Return tt, w') ∧
    heap w' = <[0%nat := set__port (Some 9092)
                           (set__host (Some "10.0.0.5"%string)
                              {| id := 1; _Broker__host := None;
                                 _Broker__port := None; is_dead := false;
                                 _Broker__client := None;
                                 broker_state := Unconfigured |})]>
                (heap example_world) ∧
    (_Broker__host <$> heap w' !! 0%nat) = Some (Some "10.0.0.5"%string) ∧
    (_Broker__port <$> heap w' !! 0%nat) = Some (Some 9092).
Proof.
  apply (Broker_configure_parses_host_port example_world 0 _
           (ZooKeeper.Znode "7:10.0.0.5:9092" []) "7" "10.0.0.5" "9092" 9092);
    vm_compute; reflexivity.
Defined.

(** ** Values that do not parse *)

(** A value with the wrong number of fields: the unpacking raises before
    any attribute is assigned. *)
Lemma Broker_configure_bad_arity
    (w : World) (self : nat) (b : BrokerObject) (z : ZooKeeper.znode) :
  heap w !! self = Some b →
  ZooKeeper.nodes (zookeeper w) !! ("/brokers/ids/" +:+ Py.str (id b))%string
    = Some z →
  length (Py.split ":" (ZooKeeper.data z)) ≠ 3%nat →
  ∃ w', Broker._configure self w = (Raise ValueError, w') ∧ heap w' = heap w.
Proof.
  intros Hself Hnode Hlen.
  rewrite (Broker_configure_fetch w self b Hself z Hnode).
  destruct (Py.split ":" (ZooKeeper.data z)) as [|? [|? [|? [|]]]];
    try (eexists; split; reflexivity).
  by destruct Hlen.
Qed.

(** Three fields with a port that [int] rejects: the host has been
    assigned by the unpacking when [int] raises. *)
Lemma Broker_configure_bad_port
    (w : World) (self : nat) (b : BrokerObject) (z : ZooKeeper.znode)
    (creator host port : string) :
  heap w !! self = Some b →
  ZooKeeper.nodes (zookeeper w) !! ("/brokers/ids/" +:+ Py.str (id b))%string
    = Some z →
  Py.split ":" (ZooKeeper.data z) = [creator; host; port] →
  Py.int_of_str port = None →
  ∃ w', Broker._configure self w = (Raise ValueError, w') ∧
        heap w' = <[self := set__host (Some host) b]> (heap w).
Proof.
  intros Hself Hnode Hsplit Hport.
  rewrite (Broker_configure_fetch w self b Hself z Hnode), Hsplit, Hport.
  eexists; split; reflexivity.
Qed.

(** C2. A broker holding host 10.0.0.5 and port 9092 fetches the value
    7:10.0.0.9:http.  The call raises [ValueError], the port is still 9092,
    and the host is now 10.0.0.9: the failed call has changed the host. *)
Theorem Broker_configure_failure_changes_host :
  (_Broker__host <$> heap example_world_bad_port !! 0%nat)
    = Some (Some "10.0.0.5"%string) ∧
  (_Broker__port <$> heap example_world_bad_port !! 0%nat)
    = Some (Some 9092) ∧
  fst (Broker._configure 0 example_world_bad_port) = Raise ValueError ∧
  (_Broker__host <$> heap (snd (Broker._configure 0 example_world_bad_port)) !! 0%nat)
    = Some (Some "10.0.0.9"%string) ∧
  (_Broker__port <$> heap (snd (Broker._configure 0 example_world_bad_port)) !! 0%nat)
    = Some (Some 9092).
Proof. vm_compute. repeat split; reflexivity. Qed.

(** C3. A broker that was just constructed (reference 1, alive, host and
    port unset) fetches the value 7:10.0.0.6:http.  The call raises
    [ValueError] and leaves the host set and the port unset. *)
Theorem Broker_configure_failure_sets_host_only :
  heap example_world !! 1%nat
    = Some {| id := 2; _Broker__host := None; _Broker__port := None;
              is_dead := false; _Broker__client := None;
              broker_state := Unconfigured |} ∧
  fst (Broker._configure 1 example_world) = Raise ValueError ∧
  heap (snd (Broker._configure 1 example_world)) !! 1%nat
    = Some {| id := 2; _Broker__host := Some "10.0.0.6"%string;
              _Broker__port := None;
              is_dead := false; _Broker__client := None;
              broker_state := Unconfigured |}.
Proof. vm_compute. repeat split; reflexivity. Qed.

(** ** One pass of [BrokerMap._configure] *)

Lemma map_int_spec (names : list string) (w : World) :
  map_int names w =
  match ids_of names with
  | Some ids => (Return ids, w)
  | None => (Raise ValueError, w)
  end.
Proof.
  unfold ids_of. induction names as [|s names IH]; simpl; [done|].
  destruct (Py.int_of_str s) as [n|]; simpl; [|done].
  unfold bind. rewrite IH.
  by destruct (mapM Py.int_of_str names).
Qed.

Lemma registry_wf_lookup w k r :
  registry_wf w → _BrokerMap__brokers w !! k = Some r →
  ∃ b, heap w !! r = Some b ∧ k = Py.Int (id b).
Proof.
  intros Hwf Hk. specialize (Hwf k r Hk). simpl in Hwf.
  destruct (heap w !! r) as [b|]; [|done].
  exists b. split; [done|]. by inversion Hwf.
Qed.

Lemma alive_cons (n : Z) (ids : list Z) (alive : gset Py.value) :
  list_to_set (Py.Int <$> ids) ∪ ({[ Py.Int n ]} ∪ alive)
  = list_to_set (Py.Int <$> n :: ids) ∪ alive.
Proof.
  rewrite fmap_cons, list_to_set_cons.
  rewrite (assoc_L (∪)). f_equal. apply (comm_L (∪)).
Qed.

Section AddLoop.

(** The body of the first loop of [BrokerMap._configure]. *)
Let add (broker_id : Z) (alive : gset Py.value) : M (gset Py.value) :=
  present <- dict_contains (Py.Int broker_id) ;;
  (if present then ret tt
   else
     broker <- Broker.__init__ (Py.Int broker_id) ;;
     b <- load broker ;;
     dict_setitem (Py.Int (id b)) broker) ;;
  ret ({[ Py.Int broker_id ]} ∪ alive).

Lemma add_known n alive w r :
  _BrokerMap__brokers w !! Py.Int n = Some r →
  add n alive w = (Return ({[ Py.Int n ]} ∪ alive), w).
Proof.
  intros Hk. unfold add, bind, dict_contains.
  rewrite bool_decide_eq_true_2 by (by rewrite Hk). done.
Qed.

Lemma add_unknown n alive w :
  _BrokerMap__brokers w !! Py.Int n = None →
  add n alive w =
  (Return ({[ Py.Int n ]} ∪ alive),
   set__brokers (<[Py.Int n := length (heap w)]> (_BrokerMap__brokers w))
     (set_heap (heap w ++ [fresh_broker n]) w)).
Proof.
  intros Hk. unfold add, bind, dict_contains.
  rewrite bool_decide_eq_false_2 by (rewrite Hk; by intros [? ?]).
  unfold Broker.__init__, alloc, load. simpl.
  by rewrite list_lookup_middle.
Qed.

Lemma add_loop ids : ∀ alive w,
  registry_wf w →
  ∃ w', for_fold ids add alive w
          = (Return (list_to_set (Py.Int <$> ids) ∪ alive), w') ∧
        added ids w w'.
Proof.
  induction ids as [|n ids IH]; intros alive w Hwf.
  - exists w. split.
    + simpl. unfold ret. by rewrite (left_id_L ∅ (∪)).
    + split; try done.
      * exists []. by rewrite app_nil_r.
      * intros n Hn. by apply elem_of_nil in Hn.
  - simpl for_fold. unfold bind at 1.
    destruct (_BrokerMap__brokers w !! Py.Int n) as [r|] eqn:Hk.
    + rewrite (add_known n alive w r Hk).
      destruct (IH ({[ Py.Int n ]} ∪ alive) w Hwf) as (w' & Hrun & Hadd).
      exists w'. split.
      { rewrite Hrun. by rewrite alive_cons. }
      destruct Hadd as [Hzk1 Hcl1 Hms1 Hheap1 Hold1 Hnew1 Honly1 Hwf1]. split; try done.
      * intros m Hm Hnone. apply Hnew1; [|done].
        apply elem_of_cons in Hm as [->|]; [congruence|done].
      * intros k Hnone Hnot. apply Honly1; [done|].
        rewrite fmap_cons in Hnot. by apply not_elem_of_cons in Hnot as [_ ?].
    + rewrite (add_unknown n alive w Hk).
      set (w1 := set__brokers _ _).
      assert (Hwfn : registry_wf w1).
      { intros k r. unfold w1. simpl.
        rewrite lookup_insert. case_decide as Hkn.
        - intros [= <-]. subst k. by rewrite list_lookup_middle.
        - intros Hr. destruct (registry_wf_lookup w k r Hwf Hr) as (b & Hb & ->).
          by rewrite (lookup_app_l_Some _ _ _ _ Hb). }
      destruct (IH ({[ Py.Int n ]} ∪ alive) w1 Hwfn) as (w' & Hrun & Hadd).
      exists w'. split.
      { rewrite Hrun. by rewrite alive_cons. }
      destruct Hadd as [Hzk1 Hcl1 Hms1 Hheap1 Hold1 Hnew1 Honly1 Hwf1]. split; try done.
      * destruct Hheap1 as [new Hnew]. exists (fresh_broker n :: new).
        rewrite Hnew. unfold w1. simpl. by rewrite <- app_assoc.
      * intros k r Hr. apply Hold1. unfold w1. simpl.
        rewrite lookup_insert_ne; [done|]. congruence.
      * intros m Hm Hnone.
        destruct (decide (m = n)) as [->|Hmn].
        -- exists (length (heap w)). split; [|split; [lia|]].
           ++ apply Hold1. unfold w1. simpl. by rewrite lookup_insert_eq.
           ++ destruct Hheap1 as [new ->]. unfold w1. simpl.
              rewrite <- app_assoc. simpl. by rewrite list_lookup_middle.
        -- apply elem_of_cons in Hm as [->|Hm]; [done|].
           destruct (Hnew1 m Hm) as (r & Hr & Hle & Hb).
           { unfold w1. simpl. rewrite lookup_insert_ne; [done|]. congruence. }
           exists r. split; [done|]. split; [|done].
           unfold w1 in Hle. simpl in Hle. rewrite length_app in Hle. lia.
      * intros k Hnone Hnot.
        rewrite fmap_cons in Hnot. apply not_elem_of_cons in Hnot as [Hkn ?].
        apply Honly1; [|done].
        unfold w1. simpl. by rewrite lookup_insert_ne.
Qed.

End AddLoop.

Section RemoveLoop.

(** The body of the second loop of [BrokerMap._configure]. *)
Let remove (broker_id : Py.value) : M unit :=
  broker <- dict_getitem broker_id ;;
  store broker (set_is_dead true) ;;
  b <- load broker ;;
  dict_delitem (Py.Int (id b)).

Lemma remove_step k r b w :
  _BrokerMap__brokers w !! k = Some r →
  heap w !! r = Some b →
  k = Py.Int (id b) →
  remove k w =
  (Return tt,
   set__brokers (delete k (_BrokerMap__brokers w))
     (set_heap (<[r := set_is_dead true b]> (heap w)) w)).
Proof.
  intros Hk Hr ->. unfold remove, bind, dict_getitem, store, load.
  rewrite Hk, Hr. simpl.
  rewrite list_lookup_insert_eq by (by eapply lookup_lt_Some).
  unfold dict_delitem. simpl. by rewrite Hk.
Qed.

Lemma registry_wf_inj w k1 k2 r :
  registry_wf w →
  _BrokerMap__brokers w !! k1 = Some r →
  _BrokerMap__brokers w !! k2 = Some r → k1 = k2.
Proof.
  intros Hwf H1 H2.
  destruct (registry_wf_lookup w k1 r Hwf H1) as (b1 & Hb1 & ->).
  destruct (registry_wf_lookup w k2 r Hwf H2) as (b2 & Hb2 & ->).
  congruence.
Qed.

Lemma remove_loop l : ∀ w,
  registry_wf w → NoDup l →
  (∀ k, k ∈ l → is_Some (_BrokerMap__brokers w !! k)) →
  ∃ w', for_each l remove w = (Return tt, w') ∧ removed l w w'.
Proof.
  induction l as [|k l IH]; intros w Hwf Hnodup Hdom.
  - exists w. split; [done|]. split; try done.
    + intros k Hk. by apply elem_of_nil in Hk.
    + intros k r b Hk. by apply elem_of_nil in Hk.
  - apply NoDup_cons in Hnodup as [Hkl Hnodup].
    destruct (Hdom k) as [r Hk]; [by left|].
    destruct (registry_wf_lookup w k r Hwf Hk) as (b & Hr & Hkb).
    simpl for_each. unfold bind at 1.
    rewrite (remove_step k r b w Hk Hr Hkb).
    set (w1 := set__brokers _ _).
    assert (Hheap1 : ∀ r', r' ≠ r → heap w1 !! r' = heap w !! r').
    { intros r' Hne. unfold w1. simpl. by rewrite list_lookup_insert_ne. }
    assert (Hheap1r : heap w1 !! r = Some (set_is_dead true b)).
    { unfold w1. simpl. rewrite list_lookup_insert_eq; [done|].
      by eapply lookup_lt_Some. }
    assert (Hmap1 : ∀ k', k' ≠ k →
              _BrokerMap__brokers w1 !! k' = _BrokerMap__brokers w !! k').
    { intros k' Hne. unfold w1. simpl. by rewrite lookup_delete_ne. }
    assert (Hmap1k : _BrokerMap__brokers w1 !! k = None).
    { unfold w1. simpl. by rewrite lookup_delete_eq. }
    assert (Hwf1 : registry_wf w1).
    { intros k' r' Hk'.
      destruct (decide (k' = k)) as [->|Hne]; [congruence|].
      rewrite Hmap1 in Hk' by done.
      destruct (decide (r' = r)) as [->|Hner].
      - by rewrite (registry_wf_inj w k' k r Hwf Hk' Hk) in Hne.
      - rewrite Hheap1 by done. by apply Hwf. }
    destruct (IH w1 Hwf1 Hnodup) as (w' & Hrun & Hrem).
    { intros k' Hk'. rewrite Hmap1 by (intros ->; done).
      apply Hdom. by right. }
    exists w'. split; [done|].
    destruct Hrem as [Hzk2 Hcl2 Hms2
        Hgone Hkept Hmark Hothers Hwf2].
      split; try done.
    + intros k' [->|Hk']%elem_of_cons; [|by auto].
      by rewrite Hkept.
    + intros k' [Hne Hk']%not_elem_of_cons.
      rewrite Hkept by done. by apply Hmap1.
    + intros k' r' b' [->|Hk']%elem_of_cons Hkr Hb.
      * assert (r' = r) as -> by congruence.
        assert (b' = b) as -> by congruence.
        rewrite Hothers; [done|].
        intros k2 Hk2 Hk2r.
        rewrite Hmap1 in Hk2r by (intros ->; done).
        apply Hkl. by rewrite <- (registry_wf_inj w k2 k r Hwf Hk2r Hk).
      * assert (k' ≠ k) as Hne by (intros ->; done).
        apply (Hmark k'); [done| by rewrite Hmap1 |].
        rewrite Hheap1; [done|]. intros ->.
        by apply Hne, (registry_wf_inj w k' k r Hwf).
    + intros r' Hr'.
      assert (r' ≠ r) as Hne.
      { intros ->. apply (Hr' k); [by left|done]. }
      rewrite Hothers, Hheap1; [done..|].
      intros k2 Hk2 Hk2r.
      rewrite Hmap1 in Hk2r by (intros ->; done).
      apply (Hr' k2); [by right|done].
Qed.

End RemoveLoop.

Lemma zk_get_children_found path watch w z :
  ZooKeeper.nodes (zookeeper w) !! path = Some z →
  zk_get_children path watch w =
  (Return (ZooKeeper.children z),
   set_zookeeper
     (snd (ZooKeeper.get_children path watch (zookeeper w))) w).
Proof.
  intros Hz. unfold zk_get_children, ZooKeeper.get_children. by rewrite Hz.
Qed.

Lemma zk_get_children_missing path watch w :
  ZooKeeper.nodes (zookeeper w) !! path = None →
  zk_get_children path watch w =
  (Raise NoNodeException,
   set_zookeeper
     (snd (ZooKeeper.get_children path watch (zookeeper w))) w).
Proof.
  intros Hz. unfold zk_get_children, ZooKeeper.get_children. by rewrite Hz.
Qed.

Lemma BrokerMap_configure_pass
    (w : World) (z : ZooKeeper.znode) (ids : list Z) :
  registry_wf w →
  ZooKeeper.nodes (zookeeper w) !! "/brokers/ids"%string = Some z →
  ids_of (ZooKeeper.children z) = Some ids →
  ∃ w', BrokerMap._configure w = (Return tt, w') ∧ pass ids w w'.
Proof.
  intros Hwf Hz Hids.
  unfold BrokerMap._configure.
  unfold bind at 1, try_except.
  rewrite (zk_get_children_found _ _ _ _ Hz).
  fold (asked_children w).
  set (w0 := asked_children w).
  unfold bind at 1. rewrite map_int_spec, Hids.
  assert (Hwf0 : registry_wf w0) by exact Hwf.
  unfold bind at 1.
  destruct (add_loop ids ∅ w0 Hwf0) as (w1 & Hrun1 & Hadd).
  rewrite Hrun1. clear Hrun1.
  unfold bind at 1, dict_keys.
  set (alive := list_to_set (Py.Int <$> ids) ∪ ∅).
  set (dead := dom (_BrokerMap__brokers w1) ∖ alive).
  destruct Hadd as [Hzk1 Hcl1 Hms1
    Hheap1 Hold1 Hnew1 Honly1 Hwf1].
  assert (Halive : ∀ k, k ∈ alive ↔ k ∈ Py.Int <$> ids).
  { intros k. unfold alive.
    by rewrite (right_id_L ∅ (∪)), elem_of_list_to_set. }
  assert (Hdead : ∀ k, k ∈ elements dead ↔
            is_Some (_BrokerMap__brokers w1 !! k) ∧ k ∉ Py.Int <$> ids).
  { intros k. rewrite elem_of_elements. unfold dead.
    rewrite elem_of_difference, elem_of_dom, Halive. done. }
  destruct (remove_loop (elements dead) w1 Hwf1) as (w2 & Hrun2 & Hrem).
  { apply NoDup_elements. }
  { intros k Hk. by apply Hdead in Hk as [? _]. }
  rewrite Hrun2. clear Hrun2.
  destruct Hrem as [Hzk2 Hcl2 Hms2
    Hgone Hkept Hmark Hothers Hwf2].
  destruct Hheap1 as [new Hnew].
  assert (Hold : ∀ r b, heap w !! r = Some b → heap w1 !! r = Some b).
  { intros r b Hb. rewrite Hnew. by apply lookup_app_l_Some. }
  exists w2. split; [done|].
  split.
  - by rewrite Hzk2, Hzk1.
  - by rewrite Hcl2, Hcl1.
  - by rewrite Hms2, Hms1.
  - apply set_eq. intros k. rewrite elem_of_dom, elem_of_list_to_set.
    split.
    + intros Hsome. destruct (decide (k ∈ elements dead)) as [Hin|Hnot].
      * rewrite Hgone in Hsome by done. by destruct Hsome.
      * rewrite Hkept in Hsome by done.
        destruct (decide (k ∈ Py.Int <$> ids)); [done|].
        destruct Hnot. by apply Hdead.
    + intros Hin.
      rewrite Hkept by (rewrite Hdead; tauto).
      apply list_elem_of_fmap in Hin as (n & -> & Hn).
      destruct (_BrokerMap__brokers w !! Py.Int n) as [r|] eqn:Hk.
      * rewrite (Hold1 _ r); [done|exact Hk].
      * destruct (Hnew1 n Hn) as (r & -> & _); [exact Hk|done].
  - intros n Hn Hnone.
    destruct (Hnew1 n Hn) as (r & Hr & Hle & Hb); [exact Hnone|].
    assert (Hnd : Py.Int n ∉ elements dead).
    { rewrite Hdead. intros [_ Hnot]. apply Hnot.
      apply list_elem_of_fmap. eauto. }
    exists r. split; [|split].
    + by rewrite Hkept.
    + by apply lookup_ge_None_2.
    + rewrite Hothers; [done|].
      intros k Hk Hkr. apply Hnd.
      by rewrite <- (registry_wf_inj w1 k (Py.Int n) r).
  - intros k r b Hk Hb Hnot.
    assert (Hkd : k ∈ elements dead).
    { apply Hdead. split; [|done]. rewrite (Hold1 k r); [done|exact Hk]. }
    split; [by apply Hgone|].
    apply (Hmark k); [done| |by apply Hold].
    by apply Hold1.
  - intros k r Hk Hin.
    assert (Hkd : k ∉ elements dead) by (rewrite Hdead; tauto).
    assert (Hk1 : _BrokerMap__brokers w1 !! k = Some r) by (by apply Hold1).
    split; [by rewrite Hkept|].
    destruct (registry_wf_lookup w k r Hwf Hk) as (b & Hb & _).
    rewrite Hothers, Hb; [by apply Hold|].
    intros k2 Hk2 Hk2r. apply Hkd.
    by rewrite <- (registry_wf_inj w1 k2 k r).
  - intros r b Hb.
    destruct (decide (Exists (λ k, _BrokerMap__brokers w1 !! k = Some r)
                        (elements dead))) as [Hex|Hno].
    + apply Exists_exists in Hex as (k & Hk & Hkr).
      right. apply (Hmark k); [done..|by apply Hold].
    + left. rewrite Hothers; [by apply Hold|].
      intros k Hk Hkr. apply Hno, Exists_exists. eauto.
  - done.
Qed.

(** C1. One pass of [BrokerMap._configure] over a registry that files its
    brokers under their ids, when the children of /brokers/ids denote the
    ids [ids]: the keys afterwards are exactly [ids]; an id that was not a
    key is bound to a reference that did not exist before, holding a newly
    constructed broker; a key that is not among [ids] is gone, and the
    object it was bound to is the same object with [is_dead] set; a key
    that stays keeps its reference and its object. *)
Theorem BrokerMap_configure_diff
    (w : World) (z : ZooKeeper.znode) (ids : list Z) :
  registry_wf w →
  ZooKeeper.nodes (zookeeper w) !! "/brokers/ids"%string = Some z →
  ids_of (ZooKeeper.children z) = Some ids →
  ∃ w',
    BrokerMap._configure w = (Return tt, w') ∧
    dom (_BrokerMap__brokers w') = list_to_set (Py.Int <$> ids) ∧
    (∀ n, n ∈ ids → _BrokerMap__brokers w !! Py.Int n = None →
          ∃ r, _BrokerMap__brokers w' !! Py.Int n = Some r ∧
               heap w !! r = None ∧
               heap w' !! r = Some (fresh_broker n)) ∧
    (∀ k r b, _BrokerMap__brokers w !! k = Some r →
              heap w !! r = Some b →
              k ∉ Py.Int <$> ids →
              _BrokerMap__brokers w' !! k = None ∧
              heap w' !! r = Some (set_is_dead true b)) ∧
    (∀ k r, _BrokerMap__brokers w !! k = Some r →
            k ∈ Py.Int <$> ids →
            _BrokerMap__brokers w' !! k = Some r ∧
            heap w' !! r = heap w !! r) ∧
    registry_wf w'.
Proof.
  intros Hwf Hz Hids.
  destruct (BrokerMap_configure_pass w z ids Hwf Hz Hids)
    as (w' & Hrun & [_ _ _ Hdom Hnew Hremoved Hkept _ Hwf']).
  exists w'. split; [done|]. split; [done|]. split; [done|].
  split; [|split; [|done]].
  - intros k r b Hk Hb Hnot. by apply Hremoved.
  - intros k r Hk Hin. by apply Hkept.
Qed.

Lemma BrokerMap_configure_diff_witness :
  ∃ w',
    BrokerMap._configure example_world_changed = (Return tt, w') ∧
    dom (_BrokerMap__brokers w') = list_to_set (Py.Int <$> [2; 3]) ∧
    (∀ n, n ∈ [2; 3] →
          _BrokerMap__brokers example_world_changed !! Py.Int n = None →
          ∃ r, _BrokerMap__brokers w' !! Py.Int n = Some r ∧
               heap example_world_changed !! r = None ∧
               heap w' !! r = Some (fresh_broker n)) ∧
    (∀ k r b, _BrokerMap__brokers example_world_changed !! k = Some r →
              heap example_world_changed !! r = Some b →
              k ∉ Py.Int <$> [2; 3] →
              _BrokerMap__brokers w' !! k = None ∧
              heap w' !! r = Some (set_is_dead true b)) ∧
    (∀ k r, _BrokerMap__brokers example_world_changed !! k = Some r →
            k ∈ Py.Int <$> [2; 3] →
            _BrokerMap__brokers w' !! k = Some r ∧
            heap w' !! r = heap example_world_changed !! r) ∧
    registry_wf w'.
Proof.
  apply (BrokerMap_configure_diff example_world_changed
           (ZooKeeper.Znode "" ["2"; "3"]) [2; 3]).
  - apply (bool_decide_unpack (registry_wf example_world_changed)).
    vm_compute. exact I.
  - vm_compute. reflexivity.
  - vm_compute. reflexivity.
Defined.

(** ** Passes that fail *)

Lemma BrokerMap_configure_no_node (w : World) :
  ZooKeeper.nodes (zookeeper w) !! "/brokers/ids"%string = None →
  BrokerMap._configure w = (Raise ImproperlyConfigured, asked_children w).
Proof.
  intros Hz. unfold BrokerMap._configure, bind, try_except.
  by rewrite (zk_get_children_missing _ _ _ Hz).
Qed.

Lemma BrokerMap_configure_bad_children (w : World) (z : ZooKeeper.znode) :
  ZooKeeper.nodes (zookeeper w) !! "/brokers/ids"%string = Some z →
  ids_of (ZooKeeper.children z) = None →
  BrokerMap._configure w = (Raise ValueError, asked_children w).
Proof.
  intros Hz Hids. unfold BrokerMap._configure.
  unfold bind at 1, try_except.
  rewrite (zk_get_children_found _ _ _ _ Hz).
  unfold bind at 1. by rewrite map_int_spec, Hids.
Qed.

(** The accessors' guard, unfolded. *)
Lemma BrokerMap_configured_eq {A} (method : M A) (w : World) :
  BrokerMap.configured method w =
  match map_state w with
  | Configured => method w
  | st =>
      match BrokerMap._configure (set_map_state Configuring w) with
      | (Return _, w') => method (set_map_state Configured w')
      | (Raise e, w') => (Raise e, set_map_state st w')
      end
  end.
Proof.
  unfold BrokerMap.configured, requires_configuration, bind, on_error.
  destruct (map_state w); simpl; try done;
    by destruct (BrokerMap._configure (set_map_state Configuring w)) as [[[]|e] w'].
Qed.

(** An accessor of a registry that was never configured, when the root
    path is missing: the misconfiguration reaches the caller. *)
Lemma BrokerMap_accessor_missing_root {A} (method : M A) (w : World) :
  map_state w ≠ Configured →
  ZooKeeper.nodes (zookeeper w) !! "/brokers/ids"%string = None →
  fst (BrokerMap.configured method w) = Raise ImproperlyConfigured ∧
  map_state (snd (BrokerMap.configured method w)) = map_state w ∧
  _BrokerMap__brokers (snd (BrokerMap.configured method w))
    = _BrokerMap__brokers w.
Proof.
  intros Hst Hz. rewrite BrokerMap_configured_eq.
  rewrite (BrokerMap_configure_no_node (set_map_state Configuring w)) by exact Hz.
  by destruct (map_state w).
Qed.

(** C4. When /brokers/ids does not exist, [BrokerMap._configure] raises
    [ImproperlyConfigured] (it does not return), and the registry's
    dictionary and every broker object are as they were. *)
Theorem BrokerMap_configure_missing_root (w : World) :
  ZooKeeper.nodes (zookeeper w) !! "/brokers/ids"%string = None →
  ∃ w',
    BrokerMap._configure w = (Raise ImproperlyConfigured, w') ∧
    _BrokerMap__brokers w' = _BrokerMap__brokers w ∧
    heap w' = heap w ∧
    map_state w' = map_state w.
Proof.
  intros Hz. exists (asked_children w).
  by rewrite (BrokerMap_configure_no_node w Hz).
Qed.

Lemma BrokerMap_configure_missing_root_witness :
  ∃ w',
    BrokerMap._configure (new_world empty_zookeeper)
      = (Raise ImproperlyConfigured, w') ∧
    _BrokerMap__brokers w' = _BrokerMap__brokers (new_world empty_zookeeper) ∧
    heap w' = heap (new_world empty_zookeeper) ∧
    map_state w' = map_state (new_world empty_zookeeper).
Proof.
  apply (BrokerMap_configure_missing_root (new_world empty_zookeeper)).
  vm_compute. reflexivity.
Defined.

(** The size of a registry whose root path is missing is never reported
    as zero. *)
Lemma BrokerMap_len_missing_root (w : World) :
  map_state w ≠ Configured →
  ZooKeeper.nodes (zookeeper w) !! "/brokers/ids"%string = None →
  fst (BrokerMap.__len__ w) = Raise ImproperlyConfigured.
Proof.
  intros Hst Hz. by apply BrokerMap_accessor_missing_root.
Qed.

(** ** Looking brokers up *)

(** C7. In a configured registry, [get] of an id that is not a key raises
    [KeyError] and changes nothing, and so does indexing; [KeyError] is
    not the [ImproperlyConfigured] that the same call raises when the
    registry cannot be configured because the root path is missing. *)
Theorem BrokerMap_get_missing (w : World) (id : Py.value) :
  map_state w = Configured →
  _BrokerMap__brokers w !! id = None →
  BrokerMap.get id w = (Raise KeyError, w) ∧
  BrokerMap.__getitem__ id w = (Raise KeyError, w) ∧
  KeyError ≠ ImproperlyConfigured ∧
  (∀ w0, map_state w0 ≠ Configured →
         ZooKeeper.nodes (zookeeper w0) !! "/brokers/ids"%string = None →
         fst (BrokerMap.get id w0) = Raise ImproperlyConfigured).
Proof.
  intros Hst Hid.
  assert (Hget : BrokerMap.get id w = (Raise KeyError, w)).
  { unfold BrokerMap.get. rewrite BrokerMap_configured_eq, Hst.
    unfold dict_getitem. by rewrite Hid. }
  split; [done|]. split; [done|]. split; [done|].
  intros w0 Hst0 Hz0. by apply BrokerMap_accessor_missing_root.
Qed.

Lemma BrokerMap_get_missing_witness :
  BrokerMap.get (Py.Int 5) example_world = (Raise KeyError, example_world) ∧
  BrokerMap.__getitem__ (Py.Int 5) example_world
    = (Raise KeyError, example_world) ∧
  KeyError ≠ ImproperlyConfigured ∧
  (∀ w0, map_state w0 ≠ Configured →
         ZooKeeper.nodes (zookeeper w0) !! "/brokers/ids"%string = None →
         fst (BrokerMap.get (Py.Int 5) w0) = Raise ImproperlyConfigured).
Proof.
  apply (BrokerMap_get_missing example_world (Py.Int 5));
    vm_compute; reflexivity.
Defined.

(** C10. Ids are integers at the interface.  [Broker.__init__] stores
    [int(id)] for an id of either form; every key of the registry is an
    integer, and after a pass the keys are the integers that the child
    names denote; so in a configured registry that holds the id [n], [get]
    of [n] returns its broker while [get] of the decimal string of [n],
    which denotes the same integer, raises [KeyError]. *)
Theorem BrokerMap_keys_are_integers (w : World) (n : Z) (r : nat) :
  registry_wf w →
  map_state w = Configured →
  _BrokerMap__brokers w !! Py.Int n = Some r →
  (∀ v m w0, Py.int v = Some m →
     Broker.__init__ v w0
     = (Return (length (heap w0)), set_heap (heap w0 ++ [fresh_broker m]) w0)) ∧
  (∀ k, k ∈ dom (_BrokerMap__brokers w) → ∃ m, k = Py.Int m) ∧
  (∀ z ids,
     ZooKeeper.nodes (zookeeper w) !! "/brokers/ids"%string = Some z →
     ids_of (ZooKeeper.children z) = Some ids →
     dom (_BrokerMap__brokers (snd (BrokerMap._configure w)))
     = list_to_set (Py.Int <$> ids)) ∧
  Py.int (Py.Str (Py.str n)) = Some n ∧
  (id <$> heap w !! r) = Some n ∧
  BrokerMap.get (Py.Int n) w = (Return r, w) ∧
  BrokerMap.get (Py.Str (Py.str n)) w = (Raise KeyError, w).
Proof.
  intros Hwf Hst Hn.
  assert (Hkeys : ∀ k, k ∈ dom (_BrokerMap__brokers w) → ∃ m, k = Py.Int m).
  { intros k [r' Hk]%elem_of_dom.
    destruct (registry_wf_lookup w k r' Hwf Hk) as (b & _ & ->). eauto. }
  split; [|split; [done|split; [|split; [|split; [|split]]]]].
  - intros v m w0 Hv. unfold Broker.__init__. by rewrite Hv.
  - intros z ids Hz Hids.
    destruct (BrokerMap_configure_pass w z ids Hwf Hz Hids) as (w' & -> & Hpass).
    by destruct Hpass.
  - apply int_of_str_str.
  - destruct (registry_wf_lookup w _ r Hwf Hn) as (b & -> & Hb).
    simpl. congruence.
  - unfold BrokerMap.get. rewrite BrokerMap_configured_eq, Hst.
    unfold dict_getitem. by rewrite Hn.
  - unfold BrokerMap.get. rewrite BrokerMap_configured_eq, Hst.
    unfold dict_getitem.
    destruct (_BrokerMap__brokers w !! Py.Str (Py.str n)) as [r'|] eqn:Hs;
      [|done].
    destruct (Hkeys (Py.Str (Py.str n))) as [m Hm]; [|done].
    apply elem_of_dom. eauto.
Qed.

Lemma BrokerMap_keys_are_integers_witness :
  (∀ v m w0, Py.int v = Some m →
     Broker.__init__ v w0
     = (Return (length (heap w0)), set_heap (heap w0 ++ [fresh_broker m]) w0)) ∧
  (∀ k, k ∈ dom (_BrokerMap__brokers example_world) → ∃ m, k = Py.Int m) ∧
  (∀ z ids,
     ZooKeeper.nodes (zookeeper example_world) !! "/brokers/ids"%string
       = Some z →
     ids_of (ZooKeeper.children z) = Some ids →
     dom (_BrokerMap__brokers (snd (BrokerMap._configure example_world)))
     = list_to_set (Py.Int <$> ids)) ∧
  Py.int (Py.Str (Py.str 1)) = Some 1 ∧
  (id <$> heap example_world !! 0%nat) = Some 1 ∧
  BrokerMap.get (Py.Int 1) example_world = (Return 0%nat, example_world) ∧
  BrokerMap.get (Py.Str (Py.str 1)) example_world
    = (Raise KeyError, example_world).
Proof.
  apply (BrokerMap_keys_are_integers example_world 1 0).
  - apply (bool_decide_unpack (registry_wf example_world)).
    vm_compute. exact I.
  - vm_compute. reflexivity.
  - vm_compute. reflexivity.
Defined.

(** ** What a call asks of the coordination service *)

Lemma asked_children_requests (w : World) :
  ZooKeeper.requests (zookeeper (asked_children w))
  = ZooKeeper.requests (zookeeper w)
    ++ [ZooKeeper.GetChildren "/brokers/ids" ZooKeeper.WatchBrokerMap].
Proof.
  unfold asked_children, ZooKeeper.get_children. simpl.
  by destruct (ZooKeeper.nodes (zookeeper w) !! "/brokers/ids"%string).
Qed.

Lemma asked_children_nodes (w : World) :
  ZooKeeper.nodes (zookeeper (asked_children w))
  = ZooKeeper.nodes (zookeeper w).
Proof.
  unfold asked_children, ZooKeeper.get_children. simpl.
  by destruct (ZooKeeper.nodes (zookeeper w) !! "/brokers/ids"%string).
Qed.

Lemma Broker_configure_frame (w : World) (self : nat) (b : BrokerObject) :
  heap w !! self = Some b →
  configured_broker self b w (snd (Broker._configure self w)).
Proof.
  intros Hself.
  destruct (ZooKeeper.nodes (zookeeper w)
              !! ("/brokers/ids/" +:+ Py.str (id b))%string) as [z|] eqn:Hz.
  - rewrite (Broker_configure_fetch w self b Hself z Hz).
    destruct (Py.split ":" (ZooKeeper.data z)) as [|c [|h [|p [|]]]];
      try (split; try done; exists b; by rewrite list_insert_id).
    destruct (Py.int_of_str p); split; try done; eexists; split; done.
  - rewrite (Broker_configure_no_node w self b Hself Hz).
    split; try done. exists b. by rewrite list_insert_id.
Qed.

(** The guard of a broker's accessors, unfolded. *)
Lemma Broker_configured_eq {A} (method : M A) (w : World) (self : nat)
    (b : BrokerObject) :
  heap w !! self = Some b →
  Broker.configured self method w =
  match broker_state b with
  | Configured => method w
  | st =>
      match Broker._configure self
              (set_heap (<[self := set_broker_state Configuring b]> (heap w)) w)
      with
      | (Return _, w2) =>
          (store self (set_broker_state Configured) ;; method) w2
      | (Raise e, w2) =>
          (Raise e, snd (store self (set_broker_state st) w2))
      end
  end.
Proof.
  intros Hself.
  unfold Broker.configured, requires_configuration.
  unfold bind, load, ret, store, on_error. cbv beta.
  rewrite Hself. cbv beta iota.
  destruct (broker_state b) eqn:Hst; [| |done]; rewrite Hself;
    by destruct (Broker._configure self _) as [[[]|e] w2].
Qed.

Lemma store_frame (r : nat) (f : BrokerObject → BrokerObject) (w : World) :
  zookeeper (snd (store r f w)) = zookeeper w ∧
  _BrokerMap__brokers (snd (store r f w)) = _BrokerMap__brokers w ∧
  map_state (snd (store r f w)) = map_state w ∧
  clients (snd (store r f w)) = clients w.
Proof. unfold store. by destruct (heap w !! r). Qed.

Lemma store_found (r : nat) (f : BrokerObject → BrokerObject) (w : World) b :
  heap w !! r = Some b →
  store r f w = (Return tt, set_heap (<[r := f b]> (heap w)) w).
Proof. intros Hr. unfold store. by rewrite Hr. Qed.

Lemma read_attribute {A} (self : nat) (f : BrokerObject → A) :
  read_only (b <- load self ;; ret (f b)).
Proof. intros w. unfold bind, load, ret. by destruct (heap w !! self). Qed.

(** The first use of a broker's accessor asks for the broker's own node,
    once, and leaves a watch for [Broker._configure] of that object. *)
Lemma Broker_first_use_requests {A} (method : M A) (w : World) (self : nat)
    (b : BrokerObject) :
  heap w !! self = Some b →
  broker_state b ≠ Configured →
  read_only method →
  ZooKeeper.requests (zookeeper (snd (Broker.configured self method w)))
  = ZooKeeper.requests (zookeeper w)
    ++ [ZooKeeper.Get ("/brokers/ids/" +:+ Py.str (id b))
          (ZooKeeper.WatchBroker self)].
Proof.
  intros Hself Hst Hread.
  rewrite (Broker_configured_eq method w self b Hself).
  set (w1 := set_heap _ w).
  assert (Hself1 : heap w1 !! self = Some (set_broker_state Configuring b)).
  { unfold w1. simpl. rewrite list_lookup_insert_eq; [done|].
    by eapply lookup_lt_Some. }
  destruct (Broker_configure_frame w1 self _ Hself1) as [Hzk _ _ _ _].
  simpl in Hzk.
  assert (Hlog : ZooKeeper.requests (zookeeper (snd (Broker._configure self w1)))
          = ZooKeeper.requests (zookeeper w)
            ++ [ZooKeeper.Get ("/brokers/ids/" +:+ Py.str (id b))
                  (ZooKeeper.WatchBroker self)]).
  { rewrite Hzk. unfold ZooKeeper.get.
    by destruct (ZooKeeper.nodes (zookeeper w) !! _). }
  destruct (broker_state b) eqn:Hb; [| |done];
    (destruct (Broker._configure self w1) as [[[]|e] w2]; simpl in Hlog |- *;
     [ unfold bind, store; destruct (heap w2 !! self); simpl;
       rewrite ?Hread; done
     | unfold store; destruct (heap w2 !! self); done ]).
Qed.

(** ** New brokers are not fetched by the registry *)

(** C8. A pass of [BrokerMap._configure] that inserts the id [n] asks the
    coordination service for the children of /brokers/ids and for nothing
    else; the record it inserts is new, has host and port unset, is not
    dead and is unconfigured; the broker's node is requested when the
    broker is first read, by the broker itself. *)
Theorem BrokerMap_configure_creates_unfetched
    (w : World) (z : ZooKeeper.znode) (ids : list Z) (n : Z) :
  registry_wf w →
  ZooKeeper.nodes (zookeeper w) !! "/brokers/ids"%string = Some z →
  ids_of (ZooKeeper.children z) = Some ids →
  n ∈ ids →
  _BrokerMap__brokers w !! Py.Int n = None →
  ∃ w' r b,
    BrokerMap._configure w = (Return tt, w') ∧
    _BrokerMap__brokers w' !! Py.Int n = Some r ∧
    heap w !! r = None ∧
    heap w' !! r = Some b ∧
    id b = n ∧
    _Broker__host b = None ∧
    _Broker__port b = None ∧
    is_dead b = false ∧
    broker_state b = Unconfigured ∧
    ZooKeeper.requests (zookeeper w')
    = ZooKeeper.requests (zookeeper w)
      ++ [ZooKeeper.GetChildren "/brokers/ids" ZooKeeper.WatchBrokerMap] ∧
    ZooKeeper.requests (zookeeper (snd (Broker.host r w')))
    = ZooKeeper.requests (zookeeper w')
      ++ [ZooKeeper.Get ("/brokers/ids/" +:+ Py.str n)
            (ZooKeeper.WatchBroker r)].
Proof.
  intros Hwf Hz Hids Hn Hnone.
  destruct (BrokerMap_configure_pass w z ids Hwf Hz Hids)
    as (w' & Hrun & [Hzk _ _ _ Hnew _ _ _ _]).
  destruct (Hnew n Hn Hnone) as (r & Hr & Hfresh & Hb).
  exists w', r, (fresh_broker n).
  repeat (split; [done|]). split.
  - rewrite Hzk. apply asked_children_requests.
  - unfold Broker.host.
    rewrite (Broker_first_use_requests _ w' r (fresh_broker n) Hb);
      [done|done|apply read_attribute].
Qed.

Lemma BrokerMap_configure_creates_unfetched_witness :
  ∃ w' r b,
    BrokerMap._configure example_world_changed = (Return tt, w') ∧
    _BrokerMap__brokers w' !! Py.Int 3 = Some r ∧
    heap example_world_changed !! r = None ∧
    heap w' !! r = Some b ∧
    id b = 3 ∧
    _Broker__host b = None ∧
    _Broker__port b = None ∧
    is_dead b = false ∧
    broker_state b = Unconfigured ∧
    ZooKeeper.requests (zookeeper w')
    = ZooKeeper.requests (zookeeper example_world_changed)
      ++ [ZooKeeper.GetChildren "/brokers/ids" ZooKeeper.WatchBrokerMap] ∧
    ZooKeeper.requests (zookeeper (snd (Broker.host r w')))
    = ZooKeeper.requests (zookeeper w')
      ++ [ZooKeeper.Get ("/brokers/ids/" +:+ Py.str 3)
            (ZooKeeper.WatchBroker r)].
Proof.
  apply (BrokerMap_configure_creates_unfetched example_world_changed
           (ZooKeeper.Znode "" ["2"; "3"]) [2; 3] 3).
  - apply (bool_decide_unpack (registry_wf example_world_changed)).
    vm_compute. exact I.
  - vm_compute. reflexivity.
  - vm_compute. reflexivity.
  - apply (bool_decide_unpack (3 ∈ [2; 3])). vm_compute. exact I.
  - vm_compute. reflexivity.
Defined.

(** ** Frames *)

Lemma Broker_configure_invalid (w : World) (self : nat) :
  heap w !! self = None →
  Broker._configure self w = (Raise InvalidReference, w).
Proof.
  intros Hself. unfold Broker._configure, bind, load. by rewrite Hself.
Qed.

Lemma BrokerMap_configure_frame (w : World) :
  registry_wf w → configured_map w (snd (BrokerMap._configure w)).
Proof.
  intros Hwf.
  destruct (ZooKeeper.nodes (zookeeper w) !! "/brokers/ids"%string)
    as [z|] eqn:Hz.
  - destruct (ids_of (ZooKeeper.children z)) as [ids|] eqn:Hids.
    + destruct (BrokerMap_configure_pass w z ids Hwf Hz Hids)
        as (w' & -> & [Hzk Hcl Hms _ _ _ _ Hheap Hwf']).
      by split.
    + rewrite (BrokerMap_configure_bad_children w z Hz Hids).
      split; try done. intros r b Hb. by left.
  - rewrite (BrokerMap_configure_no_node w Hz).
    split; try done. intros r b Hb. by left.
Qed.

(** Changing objects in place, ids untouched, keeps the registry sound. *)
Lemma registry_wf_evolves (w w' : World) :
  registry_wf w →
  _BrokerMap__brokers w' = _BrokerMap__brokers w →
  (∀ r b, heap w !! r = Some b →
          ∃ b', heap w' !! r = Some b' ∧ id b' = id b) →
  registry_wf w'.
Proof.
  intros Hwf Hmap Hheap k r Hk. rewrite Hmap in Hk.
  destruct (registry_wf_lookup w k r Hwf Hk) as (b & Hb & ->).
  destruct (Hheap r b Hb) as (b' & -> & Hid). simpl. by rewrite Hid.
Qed.

Lemma get_watches_grow path watch zk :
  ZooKeeper.watches zk
  ⊆ ZooKeeper.watches (snd (ZooKeeper.get path watch zk)).
Proof.
  unfold ZooKeeper.get. destruct (ZooKeeper.nodes zk !! path); simpl;
    [apply union_subseteq_r|done].
Qed.

Lemma get_nodes path watch zk :
  ZooKeeper.nodes (snd (ZooKeeper.get path watch zk)) = ZooKeeper.nodes zk.
Proof.
  unfold ZooKeeper.get. by destruct (ZooKeeper.nodes zk !! path).
Qed.

Lemma get_children_watches_grow path watch zk :
  ZooKeeper.watches zk
  ⊆ ZooKeeper.watches (snd (ZooKeeper.get_children path watch zk)).
Proof.
  unfold ZooKeeper.get_children. destruct (ZooKeeper.nodes zk !! path); simpl;
    [apply union_subseteq_r|done].
Qed.

Lemma insert_evolves (l : list BrokerObject) (self : nat) (b' : BrokerObject)
    (r : nat) (b : BrokerObject) (P : BrokerObject → BrokerObject → Prop) :
  l !! r = Some b →
  (∀ b0, l !! self = Some b0 → P b0 b') →
  P b b →
  ∃ b1, <[self := b']> l !! r = Some b1 ∧ P b b1.
Proof.
  intros Hr Hself Hrefl.
  destruct (decide (self = r)) as [->|Hne].
  - exists b'. split; [|by apply Hself].
    apply list_lookup_insert_eq. by eapply lookup_lt_Some.
  - exists b. split; [|done]. by rewrite list_lookup_insert_ne.
Qed.

Lemma deliver_frame (x : ZooKeeper.watcher) (w : World) :
  registry_wf w → delivered w (deliver x w).
Proof.
  intros Hwf. destruct x as [|self]; simpl.
  - destruct (BrokerMap_configure_frame w Hwf) as [Hzk Hcl Hms Hheap Hwf'].
    split; try done.
    + by rewrite Hzk, asked_children_nodes.
    + rewrite Hzk. apply get_children_watches_grow.
    + intros r b Hb. destruct (Hheap r b Hb) as [-> | ->]; eauto.
  - destruct (heap w !! self) as [b|] eqn:Hself.
    + destruct (Broker_configure_frame w self b Hself)
        as [Hzk Hmap Hms Hcl (b' & Hheap & Hid & Hdead & Hclient & Hst)].
      assert (Hev : ∀ r b0, heap w !! r = Some b0 →
                ∃ b1, heap (snd (Broker._configure self w)) !! r = Some b1 ∧
                      (id b1 = id b0 ∧
                       _Broker__client b1 = _Broker__client b0 ∧
                       broker_state b1 = broker_state b0)).
      { intros r b0 Hb0. rewrite Hheap.
        apply (insert_evolves _ _ _ _ _
                 (λ b0 b1, id b1 = id b0 ∧
                           _Broker__client b1 = _Broker__client b0 ∧
                           broker_state b1 = broker_state b0)); [done| |done].
        intros b2 Hb2. assert (b2 = b) as -> by congruence. done. }
      split; try done.
      * apply (registry_wf_evolves w); [done..|].
        intros r b0 Hb0. destruct (Hev r b0 Hb0) as (b1 & ? & ? & _). eauto.
      * by rewrite Hzk, get_nodes.
      * rewrite Hzk. apply get_watches_grow.
    + rewrite (Broker_configure_invalid w self Hself). simpl.
      split; try done. intros r b Hb. eauto.
Qed.

(** ** Watches are armed again by every pass *)

Lemma foldl_establish {A S} (f : S → A → S) (Q P : S → Prop)
    (x0 : A) (l : list A) :
  x0 ∈ l →
  (∀ s x, Q s → Q (f s x)) →
  (∀ s, Q s → P (f s x0)) →
  (∀ s x, Q s → P s → P (f s x)) →
  ∀ s, Q s → Q (foldl f s l) ∧ P (foldl f s l).
Proof.
  intros Hin HQ Hest Hpres.
  assert (Hkeep : ∀ k s, Q s → P s → Q (foldl f s k) ∧ P (foldl f s k)).
  { intros k. induction k as [|x k IH]; intros s Hs Hp; simpl; [done|].
    apply IH; auto. }
  induction l as [|x l IH]; intros s Hs; [by apply elem_of_nil in Hin|].
  simpl. apply elem_of_cons in Hin as [->|Hin].
  - apply Hkeep; auto.
  - apply IH; auto.
Qed.

Lemma fired_elem path x zk :
  (path, x) ∈ ZooKeeper.watches zk → x ∈ ZooKeeper.fired path zk.
Proof.
  intros Hx. unfold ZooKeeper.fired. apply list_elem_of_fmap.
  exists (path, x). split; [done|].
  apply elem_of_elements, elem_of_filter. done.
Qed.

Lemma get_children_arms path x zk z :
  ZooKeeper.nodes zk !! path = Some z →
  (path, x) ∈ ZooKeeper.watches (snd (ZooKeeper.get_children path x zk)).
Proof.
  intros Hz. unfold ZooKeeper.get_children. rewrite Hz. simpl.
  by apply elem_of_union_l, elem_of_singleton.
Qed.

Lemma get_arms path x zk z :
  ZooKeeper.nodes zk !! path = Some z →
  (path, x) ∈ ZooKeeper.watches (snd (ZooKeeper.get path x zk)).
Proof.
  intros Hz. unfold ZooKeeper.get. rewrite Hz. simpl.
  by apply elem_of_union_l, elem_of_singleton.
Qed.

Lemma BrokerMap_configure_arms (w : World) z :
  registry_wf w →
  ZooKeeper.nodes (zookeeper w) !! "/brokers/ids"%string = Some z →
  ("/brokers/ids"%string, ZooKeeper.WatchBrokerMap)
    ∈ ZooKeeper.watches (zookeeper (snd (BrokerMap._configure w))).
Proof.
  intros Hwf Hz.
  destruct (BrokerMap_configure_frame w Hwf) as [-> _ _ _ _].
  by apply get_children_arms with z.
Qed.

Lemma Broker_configure_arms (w : World) (self : nat) b z :
  heap w !! self = Some b →
  ZooKeeper.nodes (zookeeper w) !! ("/brokers/ids/" +:+ Py.str (id b))%string
    = Some z →
  (("/brokers/ids/" +:+ Py.str (id b))%string, ZooKeeper.WatchBroker self)
    ∈ ZooKeeper.watches (zookeeper (snd (Broker._configure self w))).
Proof.
  intros Hself Hz.
  destruct (Broker_configure_frame w self b Hself) as [-> _ _ _ _].
  by apply get_arms with z.
Qed.

(** Two successive changes of the children: the registry hears of the
    second one. *)
Lemma BrokerMap_hears_second_change (w : World) z1 z2 ids2 :
  registry_wf w →
  ("/brokers/ids"%string, ZooKeeper.WatchBrokerMap)
    ∈ ZooKeeper.watches (zookeeper w) →
  ids_of (ZooKeeper.children z2) = Some ids2 →
  dom (_BrokerMap__brokers (two_changes "/brokers/ids" z1 z2 w))
  = list_to_set (Py.Int <$> ids2) ∧
  ("/brokers/ids"%string, ZooKeeper.WatchBrokerMap)
    ∈ ZooKeeper.watches (zookeeper (two_changes "/brokers/ids" z1 z2 w)).
Proof.
  intros Hwf Harmed Hids2.
  set (root := "/brokers/ids"%string).
  set (Q z := λ s, registry_wf s ∧
                   ZooKeeper.nodes (zookeeper s) !! root = Some z).
  set (armed := λ s, (root, ZooKeeper.WatchBrokerMap)
                       ∈ ZooKeeper.watches (zookeeper s)).
  assert (HQ : ∀ z s x, Q z s → Q z (deliver x s)).
  { intros z s x [Hs Hz]. destruct (deliver_frame x s Hs) as [? Hn _ _ _ _].
    split; [done|]. by rewrite Hn. }
  assert (Harm : ∀ z s, Q z s → armed (deliver ZooKeeper.WatchBrokerMap s)).
  { intros z s [Hs Hz]. by apply BrokerMap_configure_arms with z. }
  assert (Hkeep : ∀ z s x, Q z s → armed s → armed (deliver x s)).
  { intros z s x [Hs Hz] Ha. destruct (deliver_frame x s Hs) as [_ _ Hw _ _ _].
    by apply Hw. }
  unfold two_changes.
  set (w1 := remote_change root (Some z1) w).
  (* the first change *)
  assert (H1 : registry_wf w1 ∧ armed w1).
  { unfold w1, remote_change.
    set (s1 := set_zookeeper _ w).
    assert (HQ1 : Q z1 s1).
    { split; [exact Hwf|]. unfold s1. simpl. by rewrite lookup_insert_eq. }
    destruct (foldl_establish (λ s x, deliver x s) (Q z1) armed
                ZooKeeper.WatchBrokerMap
                (ZooKeeper.fired root (zookeeper w))) with (s := s1)
      as [[Hwf1 _] Harmed1]; eauto using fired_elem. }
  destruct H1 as [Hwf1 Harmed1]. clearbody w1.
  (* the second change *)
  unfold remote_change.
  set (s2 := set_zookeeper _ w1).
  assert (HQ2 : Q z2 s2).
  { split; [exact Hwf1|]. unfold s2. simpl. by rewrite lookup_insert_eq. }
  set (P := λ s, dom (_BrokerMap__brokers s) = list_to_set (Py.Int <$> ids2)
                 ∧ armed s).
  destruct (foldl_establish (λ s x, deliver x s) (Q z2) P
              ZooKeeper.WatchBrokerMap
              (ZooKeeper.fired root (zookeeper w1))) with (s := s2)
    as [_ HP]; eauto using fired_elem.
  - intros s [Hs Hz]. split; [|by apply (Harm z2)].
    simpl.
    destruct (BrokerMap_configure_pass s z2 ids2 Hs Hz Hids2)
      as (s' & -> & Hpass).
    by destruct Hpass.
  - intros s x [Hs Hz] [Hdom Ha]. split; [|by apply (Hkeep z2)].
    destruct x as [|r]; simpl.
    + destruct (BrokerMap_configure_pass s z2 ids2 Hs Hz Hids2)
        as (s' & -> & Hpass).
      by destruct Hpass.
    + destruct (heap s !! r) as [b|] eqn:Hr.
      * destruct (Broker_configure_frame s r b Hr) as [_ -> _ _ _]. done.
      * by rewrite (Broker_configure_invalid s r Hr).
Qed.

(** Two successive changes of a broker's node: the broker hears of the
    second one. *)
Lemma Broker_hears_second_change (w : World) (self : nat) (b : BrokerObject)
    z1 z2 creator host port p :
  registry_wf w →
  heap w !! self = Some b →
  (("/brokers/ids/" +:+ Py.str (id b))%string, ZooKeeper.WatchBroker self)
    ∈ ZooKeeper.watches (zookeeper w) →
  Py.split ":" (ZooKeeper.data z2) = [creator; host; port] →
  Py.int_of_str port = Some p →
  ∃ b2,
    heap (two_changes ("/brokers/ids/" +:+ Py.str (id b)) z1 z2 w) !! self
      = Some b2 ∧
    _Broker__host b2 = Some host ∧
    _Broker__port b2 = Some p ∧
    (("/brokers/ids/" +:+ Py.str (id b))%string, ZooKeeper.WatchBroker self)
      ∈ ZooKeeper.watches
          (zookeeper (two_changes ("/brokers/ids/" +:+ Py.str (id b)) z1 z2 w)).
Proof.
  intros Hwf Hself Harmed Hsplit Hport.
  set (node := ("/brokers/ids/" +:+ Py.str (id b))%string) in *.
  set (Q z := λ s, registry_wf s ∧
                   ZooKeeper.nodes (zookeeper s) !! node = Some z ∧
                   ∃ b', heap s !! self = Some b' ∧ id b' = id b).
  set (armed := λ s, (node, ZooKeeper.WatchBroker self)
                       ∈ ZooKeeper.watches (zookeeper s)).
  assert (HQ : ∀ z s x, Q z s → Q z (deliver x s)).
  { intros z s x (Hs & Hz & b' & Hb' & Hid).
    destruct (deliver_frame x s Hs) as [? Hn _ _ _ Hheap].
    split; [done|]. split; [by rewrite Hn|].
    destruct (Hheap self b' Hb') as (b1 & ? & ? & _).
    exists b1. split; [done|congruence]. }
  assert (Harm : ∀ z s,
            Q z s → armed (deliver (ZooKeeper.WatchBroker self) s)).
  { intros z s (Hs & Hz & b' & Hb' & Hid). unfold armed, node. simpl.
    rewrite <- Hid. apply Broker_configure_arms with z; [done|].
    by rewrite Hid. }
  assert (Hkeep : ∀ z s x, Q z s → armed s → armed (deliver x s)).
  { intros z s x (Hs & _) Ha.
    destruct (deliver_frame x s Hs) as [_ _ Hw _ _ _]. by apply Hw. }
  unfold two_changes.
  set (w1 := remote_change node (Some z1) w).
  assert (H1 : Q z1 w1 ∧ armed w1).
  { unfold w1, remote_change.
    set (s1 := set_zookeeper _ w).
    assert (HQ1 : Q z1 s1).
    { split; [exact Hwf|]. split; [|by exists b].
      unfold s1. simpl. by rewrite lookup_insert_eq. }
    apply (foldl_establish (λ s x, deliver x s) (Q z1) armed
             (ZooKeeper.WatchBroker self)); eauto using fired_elem. }
  destruct H1 as [(Hwf1 & _ & b1 & Hb1 & Hid1) Harmed1]. clearbody w1.
  unfold remote_change.
  set (s2 := set_zookeeper _ w1).
  assert (HQ2 : Q z2 s2).
  { split; [exact Hwf1|]. split; [|by exists b1].
    unfold s2. simpl. by rewrite lookup_insert_eq. }
  set (P := λ s, armed s ∧
                 ∃ b2, heap s !! self = Some b2 ∧
                       _Broker__host b2 = Some host ∧
                       _Broker__port b2 = Some p).
  assert (Hest : ∀ s, Q z2 s → P (deliver (ZooKeeper.WatchBroker self) s)).
  { intros s Hs. split; [by apply (Harm z2)|].
    destruct Hs as (Hs & Hz & b' & Hb' & Hid). simpl.
    unfold node in Hz. rewrite <- Hid in Hz.
    rewrite (Broker_configure_fetch s self b' Hb' z2 Hz), Hsplit, Hport.
    simpl. eexists.
    split; [apply list_lookup_insert_eq; by eapply lookup_lt_Some|done]. }
  destruct (foldl_establish (λ s x, deliver x s) (Q z2) P
              (ZooKeeper.WatchBroker self)
              (ZooKeeper.fired node (zookeeper w1))) with (s := s2)
    as [_ [Ha (b2 & Hb2 & Hh & Hp)]]; eauto using fired_elem.
  intros s x HQs [Ha (b2 & Hb2 & Hh & Hp)].
  split; [by apply (Hkeep z2)|].
  destruct x as [|r].
  - destruct HQs as (Hs & _). simpl.
    destruct (BrokerMap_configure_frame s Hs) as [_ _ _ Hheap _].
    destruct (Hheap self b2 Hb2) as [-> | ->]; eauto.
  - destruct (decide (r = self)) as [->|Hne].
    + by apply Hest.
    + simpl. destruct (heap s !! r) as [br|] eqn:Hr.
      * destruct (Broker_configure_frame s r br Hr)
          as [_ _ _ _ (br' & -> & _)].
        rewrite list_lookup_insert_ne by done. eauto.
      * rewrite (Broker_configure_invalid s r Hr). eauto.
Qed.

(** C6, as the code has it.  A call of [BrokerMap._configure] sends one
    [get_children] of /brokers/ids that carries the registry's own
    [_configure] as watcher, and a call of [Broker._configure] sends one
    [get] of the broker's node that carries that broker's own
    [_configure].  When the node exists at the time of the call, the watch
    is pending afterwards; so of two successive changes that leave the node
    in place the second is observed as well: the registry's keys are those
    of the second list of children, and the broker's host and port are
    those of the second value.  (A call that finds its node missing raises
    and leaves no watch: see [pass_after_deletion_leaves_no_watch].) *)
Theorem configure_rearms_watch_on_existing_node (w : World) :
  registry_wf w →
  (* the registry *)
  ZooKeeper.requests (zookeeper (snd (BrokerMap._configure w)))
  = ZooKeeper.requests (zookeeper w)
    ++ [ZooKeeper.GetChildren "/brokers/ids" ZooKeeper.WatchBrokerMap] ∧
  (is_Some (ZooKeeper.nodes (zookeeper w) !! "/brokers/ids"%string) →
   ("/brokers/ids"%string, ZooKeeper.WatchBrokerMap)
     ∈ ZooKeeper.watches (zookeeper (snd (BrokerMap._configure w)))) ∧
  (∀ z1 z2 ids2,
     ("/brokers/ids"%string, ZooKeeper.WatchBrokerMap)
       ∈ ZooKeeper.watches (zookeeper w) →
     ids_of (ZooKeeper.children z2) = Some ids2 →
     dom (_BrokerMap__brokers (two_changes "/brokers/ids" z1 z2 w))
     = list_to_set (Py.Int <$> ids2) ∧
     ("/brokers/ids"%string, ZooKeeper.WatchBrokerMap)
       ∈ ZooKeeper.watches (zookeeper (two_changes "/brokers/ids" z1 z2 w))) ∧
  (* every broker *)
  (∀ self b,
     heap w !! self = Some b →
     ZooKeeper.requests (zookeeper (snd (Broker._configure self w)))
     = ZooKeeper.requests (zookeeper w)
       ++ [ZooKeeper.Get ("/brokers/ids/" +:+ Py.str (id b))
             (ZooKeeper.WatchBroker self)] ∧
     (is_Some (ZooKeeper.nodes (zookeeper w)
                 !! ("/brokers/ids/" +:+ Py.str (id b))%string) →
      (("/brokers/ids/" +:+ Py.str (id b))%string, ZooKeeper.WatchBroker self)
        ∈ ZooKeeper.watches (zookeeper (snd (Broker._configure self w)))) ∧
     (∀ z1 z2 creator host port p,
        (("/brokers/ids/" +:+ Py.str (id b))%string,
         ZooKeeper.WatchBroker self)
          ∈ ZooKeeper.watches (zookeeper w) →
        Py.split ":" (ZooKeeper.data z2) = [creator; host; port] →
        Py.int_of_str port = Some p →
        ∃ b2,
          heap (two_changes ("/brokers/ids/" +:+ Py.str (id b)) z1 z2 w)
            !! self = Some b2 ∧
          _Broker__host b2 = Some host ∧
          _Broker__port b2 = Some p ∧
          (("/brokers/ids/" +:+ Py.str (id b))%string,
           ZooKeeper.WatchBroker self)
            ∈ ZooKeeper.watches
                (zookeeper
                   (two_changes ("/brokers/ids/" +:+ Py.str (id b))
                      z1 z2 w)))).
Proof.
  intros Hwf.
  split; [|split; [|split]].
  - destruct (BrokerMap_configure_frame w Hwf) as [-> _ _ _ _].
    apply asked_children_requests.
  - intros [z Hz]. by apply BrokerMap_configure_arms with z.
  - intros z1 z2 ids2. by apply BrokerMap_hears_second_change.
  - intros self b Hself. split; [|split].
    + destruct (Broker_configure_frame w self b Hself) as [-> _ _ _ _].
      unfold ZooKeeper.get. by destruct (ZooKeeper.nodes (zookeeper w) !! _).
    + intros [z Hz]. by apply Broker_configure_arms with z.
    + intros z1 z2 creator host port p.
      by apply Broker_hears_second_change.
Qed.

Lemma configure_rearms_watch_on_existing_node_witness :
  (* a registry that has never been used *)
  ZooKeeper.requests
    (zookeeper (snd (BrokerMap._configure (new_world example_zookeeper))))
  = [ZooKeeper.GetChildren "/brokers/ids" ZooKeeper.WatchBrokerMap] ∧
  ("/brokers/ids"%string, ZooKeeper.WatchBrokerMap)
    ∈ ZooKeeper.watches
        (zookeeper (snd (BrokerMap._configure (new_world example_zookeeper)))) ∧
  (* the children become 2, then 2 and 3 *)
  dom (_BrokerMap__brokers
         (two_changes "/brokers/ids" (ZooKeeper.Znode "" ["2"])
            (ZooKeeper.Znode "" ["2"; "3"]) example_world_read))
  = list_to_set (Py.Int <$> [2; 3]) ∧
  (* broker 1 moves to 10.0.0.7:9093, then to 10.0.0.8:9094 *)
  ("/brokers/ids/1"%string, ZooKeeper.WatchBroker 0)
    ∈ ZooKeeper.watches (zookeeper (snd (Broker._configure 0 example_world_read))) ∧
  ∃ b2,
    heap (two_changes "/brokers/ids/1"
            (ZooKeeper.Znode "7:10.0.0.7:9093" [])
            (ZooKeeper.Znode "7:10.0.0.8:9094" []) example_world_read)
      !! 0%nat = Some b2 ∧
    _Broker__host b2 = Some "10.0.0.8"%string ∧
    _Broker__port b2 = Some 9094.
Proof.
  assert (Hwf0 : registry_wf (new_world example_zookeeper)).
  { apply (bool_decide_unpack (registry_wf (new_world example_zookeeper))).
    vm_compute. exact I. }
  destruct (configure_rearms_watch_on_existing_node
              (new_world example_zookeeper) Hwf0)
    as (Hreq0 & Harm0 & _).
  assert (Hwf : registry_wf example_world_read).
  { apply (bool_decide_unpack (registry_wf example_world_read)).
    vm_compute. exact I. }
  destruct (configure_rearms_watch_on_existing_node example_world_read Hwf)
    as (_ & _ & Htwo & Hbroker).
  destruct (Hbroker 0%nat
              {| id := 1; _Broker__host := Some "10.0.0.5"%string;
                 _Broker__port := Some 9092; is_dead := false;
                 _Broker__client := None; broker_state := Configured |})
    as (_ & Harm1 & Htwo1).
  { vm_compute. reflexivity. }
  split; [exact Hreq0|].
  split.
  { apply Harm0. exists (ZooKeeper.Znode "" ["1"; "2"]). vm_compute.
    reflexivity. }
  split.
  { apply (Htwo (ZooKeeper.Znode "" ["2"]) (ZooKeeper.Znode "" ["2"; "3"])
             [2; 3]).
    - apply (bool_decide_unpack
               (("/brokers/ids"%string, ZooKeeper.WatchBrokerMap)
                  ∈ ZooKeeper.watches (zookeeper example_world_read))).
      vm_compute. exact I.
    - vm_compute. reflexivity. }
  split.
  { apply Harm1. exists (ZooKeeper.Znode "7:10.0.0.5:9092" []). vm_compute.
    reflexivity. }
  destruct (Htwo1 (ZooKeeper.Znode "7:10.0.0.7:9093" [])
              (ZooKeeper.Znode "7:10.0.0.8:9094" [])
              "7"%string "10.0.0.8"%string "9094"%string 9094)
    as (b2 & Hb2 & Hh & Hp & _).
  - apply (bool_decide_unpack
             (("/brokers/ids/1"%string, ZooKeeper.WatchBroker 0)
                ∈ ZooKeeper.watches (zookeeper example_world_read))).
    vm_compute. exact I.
  - vm_compute. reflexivity.
  - vm_compute. reflexivity.
  - exists b2. split; [exact Hb2|]. split; [exact Hh|exact Hp].
Defined.

(** C6, as the claim has it, fails when a change deletes the node.  The
    registry's watch on /brokers/ids is pending; the path is deleted; the
    watch fires and [BrokerMap._configure] runs, asks with its watcher,
    raises [ImproperlyConfigured], and nobody is to be notified at the
    path afterwards.  The path is then created again with the children 2
    and 3: no request is sent, and the registry still holds 1 and 2.  In
    the same way the broker whose node is deleted and created again with
    another address is never told: it still has the old host and port. *)
Lemma pass_after_deletion_leaves_no_watch :
  (* the registry *)
  ZooKeeper.fired "/brokers/ids" (zookeeper example_world_read)
  = [ZooKeeper.WatchBrokerMap] ∧
  ZooKeeper.requests (zookeeper example_world_root_deleted)
  = ZooKeeper.requests (zookeeper example_world_read)
    ++ [ZooKeeper.GetChildren "/brokers/ids" ZooKeeper.WatchBrokerMap] ∧
  fst (BrokerMap._configure
         (set_zookeeper
            (ZooKeeper.change "/brokers/ids" None (zookeeper example_world_read))
            example_world_read))
  = Raise ImproperlyConfigured ∧
  ZooKeeper.fired "/brokers/ids" (zookeeper example_world_root_deleted) = [] ∧
  ZooKeeper.requests (zookeeper example_world_root_recreated)
  = ZooKeeper.requests (zookeeper example_world_root_deleted) ∧
  _BrokerMap__brokers example_world_root_recreated !! Py.Int 3 = None ∧
  _BrokerMap__brokers example_world_root_recreated !! Py.Int 1 = Some 0%nat ∧
  (* the broker *)
  ZooKeeper.fired "/brokers/ids/1" (zookeeper example_world_read)
  = [ZooKeeper.WatchBroker 0] ∧
  ZooKeeper.requests (zookeeper example_world_node_deleted)
  = ZooKeeper.requests (zookeeper example_world_read)
    ++ [ZooKeeper.Get "/brokers/ids/1" (ZooKeeper.WatchBroker 0)] ∧
  fst (Broker._configure 0
         (set_zookeeper
            (ZooKeeper.change "/brokers/ids/1" None
               (zookeeper example_world_read))
            example_world_read))
  = Raise NoNodeException ∧
  ZooKeeper.fired "/brokers/ids/1" (zookeeper example_world_node_deleted)
  = [] ∧
  ZooKeeper.requests (zookeeper example_world_node_recreated)
  = ZooKeeper.requests (zookeeper example_world_node_deleted) ∧
  (_Broker__host <$> heap example_world_node_recreated !! 0%nat)
  = Some (Some "10.0.0.5"%string) ∧
  (_Broker__port <$> heap example_world_node_recreated !! 0%nat)
  = Some (Some 9092).
Proof. vm_compute. repeat split; reflexivity. Qed.

(** ** The client of a broker *)

Lemma keeps_objects_refl w : keeps_objects w w.
Proof. intros r b Hb. eauto. Qed.

Lemma keeps_objects_trans w1 w2 w3 :
  keeps_objects w1 w2 → keeps_objects w2 w3 → keeps_objects w1 w3.
Proof.
  intros H12 H23 r b Hb.
  destruct (H12 r b Hb) as (b2 & Hb2 & Hid2 & Hc2).
  destruct (H23 r b2 Hb2) as (b3 & Hb3 & Hid3 & Hc3).
  exists b3. split; [done|]. split; congruence.
Qed.

Lemma touches_refl w : touches w w.
Proof. split; try done. apply keeps_objects_refl. Qed.

Lemma touches_trans w1 w2 w3 : touches w1 w2 → touches w2 w3 → touches w1 w3.
Proof.
  intros [Hb12 Hc12 Hh12] [Hb23 Hc23 Hh23].
  split; [congruence|congruence|by eapply keeps_objects_trans].
Qed.

Lemma keeps_objects_insert (w : World) (r : nat) (b b' : BrokerObject) :
  heap w !! r = Some b →
  id b' = id b →
  _Broker__client b' = _Broker__client b →
  keeps_objects w (set_heap (<[r := b']> (heap w)) w).
Proof.
  intros Hr Hid Hc r0 b0 Hb0. simpl.
  apply (insert_evolves _ _ _ _ _
           (λ b0 b1, id b1 = id b0 ∧ _Broker__client b1 = _Broker__client b0));
    [done| |done].
  intros b2 Hb2. assert (b2 = b) as -> by congruence. done.
Qed.

Lemma store_touches (r : nat) (f : BrokerObject → BrokerObject) (w : World) :
  (∀ b, id (f b) = id b ∧ _Broker__client (f b) = _Broker__client b) →
  touches w (snd (store r f w)).
Proof.
  intros Hf. unfold store. destruct (heap w !! r) as [b|] eqn:Hr; simpl.
  - split; try done. apply (keeps_objects_insert w r b); [done|apply Hf..].
  - apply touches_refl.
Qed.

Lemma Broker_configure_touches (self : nat) (w : World) :
  touches w (snd (Broker._configure self w)).
Proof.
  destruct (heap w !! self) as [b|] eqn:Hself.
  - destruct (Broker_configure_frame w self b Hself)
      as [_ Hmap _ Hcl (b' & Hheap & Hid & _ & Hc & _)].
    split; try done. intros r b0 Hb0. rewrite Hheap.
    apply (insert_evolves _ _ _ _ _
             (λ b0 b1, id b1 = id b0 ∧ _Broker__client b1 = _Broker__client b0));
      [done| |done].
    intros b2 Hb2. assert (b2 = b) as -> by congruence. done.
  - rewrite (Broker_configure_invalid w self Hself). apply touches_refl.
Qed.

Lemma Broker_configured_invalid {A} (method : M A) (w : World) (self : nat) :
  heap w !! self = None →
  Broker.configured self method w = (Raise InvalidReference, w).
Proof.
  intros Hself. unfold Broker.configured, requires_configuration, bind, load.
  by rewrite Hself.
Qed.

(** Reading an attribute through the guard: on success the value is the
    attribute of the object as it is afterwards, and the object is
    configured. *)
Lemma Broker_read {A} (f : BrokerObject → A) (self : nat) (w : World) :
  let read := Broker.configured self (b <- load self ;; ret (f b)) in
  touches w (snd (read w)) ∧
  (∀ a, fst (read w) = Return a →
        ∃ b', heap (snd (read w)) !! self = Some b' ∧ a = f b' ∧
              broker_state b' = Configured) ∧
  (∀ b, heap w !! self = Some b → broker_state b = Configured →
        read w = (Return (f b), w)).
Proof.
  intros read. unfold read.
  destruct (heap w !! self) as [b|] eqn:Hself.
  2:{ rewrite (Broker_configured_invalid _ w self Hself). simpl.
      split; [apply touches_refl|]. split; [done|]. intros; done. }
  assert (Hdone : ∀ s b0, heap s !! self = Some b0 →
            (b <- load self ;; ret (f b)) s = (Return (f b0), s)).
  { intros s b0 Hs. unfold bind, load, ret. by rewrite Hs. }
  rewrite (Broker_configured_eq _ w self b Hself).
  destruct (decide (broker_state b = Configured)) as [Hc|Hnc].
  { rewrite Hc, (Hdone w b Hself). simpl.
    split; [apply touches_refl|]. split.
    - intros a [= <-]. eauto.
    - intros b0 Hb0 _. congruence. }
  set (w1 := set_heap (<[self := set_broker_state Configuring b]> (heap w)) w).
  assert (H01 : touches w w1).
  { split; try done. by apply (keeps_objects_insert w self b). }
  pose proof (Broker_configure_touches self w1) as H12.
  assert (Hrest :
    match Broker._configure self w1 with
    | (Return _, w2) =>
        touches w (snd ((store self (set_broker_state Configured) ;;
                         (b <- load self ;; ret (f b))) w2)) ∧
        ∀ a, fst ((store self (set_broker_state Configured) ;;
                   (b <- load self ;; ret (f b))) w2) = Return a →
             ∃ b', heap (snd ((store self (set_broker_state Configured) ;;
                               (b <- load self ;; ret (f b))) w2)) !! self
                   = Some b' ∧ a = f b' ∧ broker_state b' = Configured
    | (Raise e, w2) =>
        touches w (snd (store self (set_broker_state (broker_state b)) w2))
    end).
  { destruct (Broker._configure self w1) as [[[]|e] w2]; simpl in H12.
    - destruct (t_heap _ _ (touches_trans _ _ _ H01 H12) self b Hself)
        as (b2 & Hb2 & _).
      set (w3 := set_heap (<[self := set_broker_state Configured b2]> (heap w2))
                   w2).
      assert (Hb3 : heap w3 !! self = Some (set_broker_state Configured b2)).
      { unfold w3. simpl. apply list_lookup_insert_eq. by eapply lookup_lt_Some. }
      assert (Hrun : (store self (set_broker_state Configured) ;;
                      (b <- load self ;; ret (f b))) w2
                     = (Return (f (set_broker_state Configured b2)), w3)).
      { unfold bind at 1. rewrite (store_found _ _ _ _ Hb2).
        apply (Hdone w3 _ Hb3). }
      rewrite Hrun. simpl. split.
      + eapply touches_trans; [exact H01|]. eapply touches_trans; [exact H12|].
        split; try done. by apply (keeps_objects_insert w2 self b2).
      + intros a [= <-]. eauto.
    - eapply touches_trans; [exact H01|]. eapply touches_trans; [exact H12|].
      by apply store_touches. }
  destruct (broker_state b) eqn:Hst; [| |done];
    (destruct (Broker._configure self w1) as [[[]|e] w2];
     [ destruct Hrest as [Ht Ha]; split; [exact Ht|]; split; [exact Ha|];
       intros b0 Hb0 Hc0; congruence
     | simpl; split; [exact Hrest|]; split; [done|];
       intros b0 Hb0 Hc0; congruence ]).
Qed.

Lemma bind_eq {A B} (m : M A) (k : A → M B) (w : World) :
  (x <- m ;; k x) w =
  match m w with
  | (Return a, w') => k a w'
  | (Raise e, w') => (Raise e, w')
  end.
Proof. reflexivity. Qed.

Lemma Broker_client_invalid (w : World) (self : nat) :
  heap w !! self = None →
  Broker.client self w = (Raise InvalidReference, w).
Proof.
  intros Hself. unfold Broker.client, bind, load. by rewrite Hself.
Qed.

(** One access to [broker.client]. *)
Lemma Broker_client_spec (w : World) (self : nat) (b : BrokerObject) :
  heap w !! self = Some b →
  match _Broker__client b with
  | Some c => Broker.client self w = (Return c, w)
  | None =>
      (∃ e, fst (Broker.client self w) = Raise e ∧
            touches w (snd (Broker.client self w))) ∨
      (∃ b1 w1,
         touches w w1 ∧ heap w1 !! self = Some b1 ∧
         Broker.client self w =
         (Return (length (clients w)),
          set_heap
            (<[self := set__client (Some (length (clients w))) b1]> (heap w1))
            (set_clients
               (clients w ++ [{| client_host := _Broker__host b1;
                                 client_port := _Broker__port b1 |}]) w1)))
  end.
Proof.
  intros Hself. destruct (_Broker__client b) as [c|] eqn:Hc.
  { unfold Broker.client, bind, load. by rewrite Hself, Hc. }
  assert (Heq : Broker.client self w =
            (h <- Broker.host self ;;
             p <- Broker.port self ;;
             c <- new_client h p ;;
             store self (set__client (Some c)) ;; ret c) w).
  { unfold Broker.client. unfold bind at 1, load. by rewrite Hself, Hc. }
  rewrite Heq. clear Heq. rewrite bind_eq.
  destruct (Broker_read _Broker__host self w) as (Ht & Hval & _).
  fold (Broker.host self) in Ht, Hval.
  destruct (Broker.host self w) as [[h|e] w1] eqn:Hhost; simpl in Ht, Hval.
  2:{ left. exists e. by split. }
  destruct (Hval h eq_refl) as (b1 & Hb1 & -> & Hst1).
  destruct (Broker_read _Broker__port self w1) as (_ & _ & Hport).
  fold (Broker.port self) in Hport.
  rewrite bind_eq, (Hport b1 Hb1 Hst1).
  right. exists b1, w1. split; [done|]. split; [done|].
  unfold bind, new_client, store. simpl. rewrite Hb1.
  by rewrite (t_clients _ _ Ht).
Qed.

Lemma keeps_objects_clients w w' : keeps_objects w w' → keeps_clients w w'.
Proof.
  intros H r b c Hb Hc. destruct (H r b Hb) as (b' & Hb' & _ & Hc').
  exists b'. split; [done|congruence].
Qed.

Lemma keeps_clients_trans w1 w2 w3 :
  keeps_clients w1 w2 → keeps_clients w2 w3 → keeps_clients w1 w3.
Proof.
  intros H12 H23 r b c Hb Hc.
  destruct (H12 r b c Hb Hc) as (b2 & Hb2 & Hc2). eauto.
Qed.

Lemma touches_invariant w w' :
  touches w w' → registry_wf w → registry_wf w' ∧ keeps_clients w w'.
Proof.
  intros [Hmap _ Hheap] Hwf. split; [|by apply keeps_objects_clients].
  apply (registry_wf_evolves w); [done..|].
  intros r b Hb. destruct (Hheap r b Hb) as (b' & ? & ? & _). eauto.
Qed.

Lemma delivered_invariant w w' :
  delivered w w' → registry_wf w' ∧ keeps_clients w w'.
Proof.
  intros [Hwf _ _ _ _ Hheap]. split; [done|].
  intros r b c Hb Hc. destruct (Hheap r b Hb) as (b' & ? & _ & Hc' & _).
  exists b'. split; [done|congruence].
Qed.

Lemma deliveries_invariant (l : list ZooKeeper.watcher) : ∀ w,
  registry_wf w →
  registry_wf (foldl (λ w x, deliver x w) w l) ∧
  keeps_clients w (foldl (λ w x, deliver x w) w l).
Proof.
  induction l as [|x l IH]; intros w Hwf; simpl.
  - split; [done|]. intros r b c Hb Hc. eauto.
  - destruct (delivered_invariant _ _ (deliver_frame x w Hwf)) as [Hwf1 Hk1].
    destruct (IH _ Hwf1) as [Hwf2 Hk2].
    split; [done|]. by eapply keeps_clients_trans.
Qed.

(** Whatever happens, the registry stays sound and a client attribute that
    is set stays as it is. *)
Lemma happen_invariant (e : event) (w : World) :
  registry_wf w →
  registry_wf (happen e w) ∧ keeps_clients w (happen e w).
Proof.
  intros Hwf. destruct e as [r|r|r| |x|path node|r]; simpl.
  - apply touches_invariant; [|done].
    by destruct (Broker_read _Broker__host r w) as (Ht & _).
  - apply touches_invariant; [|done].
    by destruct (Broker_read _Broker__port r w) as (Ht & _).
  - destruct (heap w !! r) as [b|] eqn:Hr.
    2:{ rewrite (Broker_client_invalid w r Hr). simpl.
        by apply touches_invariant; [apply touches_refl|]. }
    pose proof (Broker_client_spec w r b Hr) as Hspec.
    destruct (_Broker__client b) as [c|] eqn:Hc.
    { rewrite Hspec. simpl. by apply touches_invariant; [apply touches_refl|]. }
    destruct Hspec as [(e & _ & Ht) | (b1 & w1 & Ht & Hb1 & ->)].
    { by apply touches_invariant. }
    simpl. destruct (touches_invariant _ _ Ht Hwf) as [Hwf1 Hk1].
    split.
    + apply (registry_wf_evolves w1); [done..|].
      intros r0 b0 Hb0. simpl.
      apply (insert_evolves _ _ _ _ _ (λ b0 b1, id b1 = id b0)); [done| |done].
      intros b2 Hb2. assert (b2 = b1) as -> by congruence. done.
    + intros r0 b0 c0 Hb0 Hc0. simpl.
      destruct (Hk1 r0 b0 c0 Hb0 Hc0) as (b' & Hb' & Hc').
      destruct (decide (r = r0)) as [->|Hne].
      * destruct (t_heap _ _ Ht r0 b Hr) as (b2 & Hb2 & _ & Hc2).
        congruence.
      * exists b'. by rewrite list_lookup_insert_ne.
  - unfold BrokerMap.__len__. rewrite BrokerMap_configured_eq.
    assert (Hpass : registry_wf (snd (BrokerMap._configure
                                        (set_map_state Configuring w))) ∧
                    keeps_clients w (snd (BrokerMap._configure
                                            (set_map_state Configuring w)))).
    { destruct (BrokerMap_configure_frame (set_map_state Configuring w) Hwf)
        as [_ _ _ Hheap Hwf'].
      split; [done|]. intros r b c Hb Hc.
      destruct (Hheap r b Hb) as [-> | ->]; eauto. }
    destruct (map_state w); simpl;
      try (by apply touches_invariant; [apply touches_refl|]);
      by destruct (BrokerMap._configure (set_map_state Configuring w))
        as [[[]|e] w'].
  - by apply delivered_invariant, deliver_frame.
  - unfold remote_change.
    destruct (deliveries_invariant (ZooKeeper.fired path (zookeeper w))
                (set_zookeeper (ZooKeeper.change path node (zookeeper w)) w)
                Hwf) as [Hwf' Hk].
    split; [exact Hwf'|exact Hk].
  - apply touches_invariant; [|done]. by apply store_touches.
Qed.

Lemma run_invariant (es : list event) : ∀ w,
  registry_wf w → registry_wf (run es w) ∧ keeps_clients w (run es w).
Proof.
  induction es as [|e es IH]; intros w Hwf; unfold run; simpl.
  - split; [done|]. intros r b c Hb Hc. eauto.
  - destruct (happen_invariant e w Hwf) as [Hwf1 Hk1].
    destruct (IH _ Hwf1) as [Hwf2 Hk2].
    split; [done|]. by eapply keeps_clients_trans.
Qed.

Lemma Broker_client_memo (w : World) (self : nat) (b : BrokerObject) (c : nat)
    (es : list event) :
  registry_wf w →
  heap w !! self = Some b →
  _Broker__client b = Some c →
  Broker.client self (run es w) = (Return c, run es w).
Proof.
  intros Hwf Hself Hc.
  destruct (run_invariant es w Hwf) as [_ Hk].
  destruct (Hk self b c Hself Hc) as (b' & Hb' & Hc').
  pose proof (Broker_client_spec (run es w) self b' Hb') as Hspec.
  by rewrite Hc' in Hspec.
Qed.

(** C9. An access to [broker.client] that raises builds no [Client].  An
    access that returns either finds the attribute set, returns it and
    builds nothing, or finds it unset and builds exactly one [Client], from
    the host and the port that the broker has at that moment.  After an
    access has returned, whatever happens next (the host or the port
    change on a refresh, the broker is marked dead), every access returns
    that same object and builds nothing. *)
Theorem Broker_client_created_once
    (w : World) (self : nat) (b : BrokerObject) (es : list event) :
  registry_wf w →
  heap w !! self = Some b →
  (∀ e, fst (Broker.client self w) = Raise e →
        clients (snd (Broker.client self w)) = clients w) ∧
  (∀ c, fst (Broker.client self w) = Return c →
        (_Broker__client b = Some c ∧ snd (Broker.client self w) = w
         ∨
         _Broker__client b = None ∧
         c = length (clients w) ∧
         ∃ b1, heap (snd (Broker.client self w)) !! self = Some b1 ∧
               _Broker__client b1 = Some c ∧
               clients (snd (Broker.client self w))
               = clients w ++ [{| client_host := _Broker__host b1;
                                  client_port := _Broker__port b1 |}]) ∧
        Broker.client self (run es (snd (Broker.client self w)))
        = (Return c, run es (snd (Broker.client self w)))).
Proof.
  intros Hwf Hself.
  destruct (happen_invariant (ReadClient self) w Hwf) as [Hwf1 _].
  simpl in Hwf1.
  pose proof (Broker_client_spec w self b Hself) as Hspec.
  destruct (_Broker__client b) as [c0|] eqn:Hc.
  { rewrite Hspec in *. simpl. split; [done|].
    intros c [= <-]. split; [by left|].
    by apply (Broker_client_memo w self b). }
  destruct Hspec as [(e & He & Ht) | (b1 & w1 & Ht & Hb1 & Hrun)].
  { split.
    - intros _ _. by apply t_clients.
    - intros c Hret. congruence. }
  rewrite Hrun in *. simpl in *. split; [done|].
  intros c [= <-].
  assert (Hnew : <[self := set__client (Some (length (clients w))) b1]>
                   (heap w1) !! self
                 = Some (set__client (Some (length (clients w))) b1)).
  { apply list_lookup_insert_eq. by eapply lookup_lt_Some. }
  split.
  - right. split; [done|]. split; [done|]. eauto.
  - by apply (Broker_client_memo _ self
                (set__client (Some (length (clients w))) b1)).
Qed.

Lemma Broker_client_created_once_witness :
  (∀ e, fst (Broker.client 0 example_world) = Raise e →
        clients (snd (Broker.client 0 example_world)) = clients example_world) ∧
  (∀ c, fst (Broker.client 0 example_world) = Return c →
        (_Broker__client (fresh_broker 1) = Some c ∧
         snd (Broker.client 0 example_world) = example_world
         ∨
         _Broker__client (fresh_broker 1) = None ∧
         c = length (clients example_world) ∧
         ∃ b1, heap (snd (Broker.client 0 example_world)) !! 0%nat = Some b1 ∧
               _Broker__client b1 = Some c ∧
               clients (snd (Broker.client 0 example_world))
               = clients example_world
                 ++ [{| client_host := _Broker__host b1;
                        client_port := _Broker__port b1 |}]) ∧
        Broker.client 0
          (run example_events (snd (Broker.client 0 example_world)))
        = (Return c,
           run example_events (snd (Broker.client 0 example_world)))).
Proof.
  apply (Broker_client_created_once example_world 0 (fresh_broker 1)
           example_events).
  - apply (bool_decide_unpack (registry_wf example_world)).
    vm_compute. exact I.
  - vm_compute. reflexivity.
Defined.

(** The run of the example: the client built for 10.0.0.5:9092 is still the
    broker's client after the broker has moved to 10.0.0.9:9093 and has
    been marked dead. *)
Example Broker_client_example :
  fst (Broker.client 0 example_world) = Return 0%nat ∧
  clients (snd (Broker.client 0 example_world))
  = [{| client_host := Some "10.0.0.5"%string; client_port := Some 9092 |}] ∧
  heap (run example_events (snd (Broker.client 0 example_world))) !! 0%nat
  = Some {| id := 1; _Broker__host := Some "10.0.0.9"%string;
            _Broker__port := Some 9093; is_dead := true;
            _Broker__client := Some 0%nat; broker_state := Configured |} ∧
  Broker.client 0 (run example_events (snd (Broker.client 0 example_world)))
  = (Return 0%nat, run example_events (snd (Broker.client 0 example_world))) ∧
  clients (run example_events (snd (Broker.client 0 example_world)))
  = [{| client_host := Some "10.0.0.5"%string; client_port := Some 9092 |}].
Proof. vm_compute. repeat split; reflexivity. Qed.

(** ** Reachable worlds *)

Lemma registry_wf_new_world (zk : ZooKeeper.t) : registry_wf (new_world zk).
Proof. unfold registry_wf, new_world. simpl. apply map_Forall_empty. Qed.

(** Every world reached from a fresh cluster handle files its brokers
    under their ids. *)
Lemma registry_wf_reachable (zk : ZooKeeper.t) (es : list event) :
  registry_wf (run es (new_world zk)).
Proof. apply run_invariant, registry_wf_new_world. Qed.

(** * More of the module *)

(** ** Passes of the registry *)

Section PassAgain.

(** The body of the first loop of [BrokerMap._configure]. *)
Let add (broker_id : Z) (alive : gset Py.value) : M (gset Py.value) :=
  present <- dict_contains (Py.Int broker_id) ;;
  (if present then ret tt
   else
     broker <- Broker.__init__ (Py.Int broker_id) ;;
     b <- load broker ;;
     dict_setitem (Py.Int (id b)) broker) ;;
  ret ({[ Py.Int broker_id ]} ∪ alive).

Lemma add_loop_known ids : ∀ alive w,
  (∀ n, n ∈ ids → is_Some (_BrokerMap__brokers w !! Py.Int n)) →
  for_fold ids add alive w
  = (Return (list_to_set (Py.Int <$> ids) ∪ alive), w).
Proof.
  induction ids as [|n ids IH]; intros alive w Hknown.
  - simpl. unfold ret. by rewrite (left_id_L ∅ (∪)).
  - simpl for_fold. unfold bind at 1.
    destruct (Hknown n) as [r Hr]; [by left|].
    unfold add at 1. rewrite (add_known n alive w r Hr).
    rewrite IH; [by rewrite alive_cons|].
    intros m Hm. apply Hknown. by right.
Qed.

(** A pass over a registry whose keys are already the children's ids. *)
Lemma BrokerMap_configure_same_children
    (w : World) (z : ZooKeeper.znode) (ids : list Z) :
  ZooKeeper.nodes (zookeeper w) !! "/brokers/ids"%string = Some z →
  ids_of (ZooKeeper.children z) = Some ids →
  dom (_BrokerMap__brokers w) = list_to_set (Py.Int <$> ids) →
  BrokerMap._configure w = (Return tt, asked_children w).
Proof.
  intros Hz Hids Hdom.
  unfold BrokerMap._configure.
  unfold bind at 1, try_except.
  rewrite (zk_get_children_found _ _ _ _ Hz).
  fold (asked_children w).
  unfold bind at 1. rewrite map_int_spec, Hids.
  unfold bind at 1. fold add.
  rewrite add_loop_known.
  - unfold bind, dict_keys. simpl.
    rewrite Hdom, (right_id_L ∅ (∪)), difference_diag_L, elements_empty.
    done.
  - intros n Hn. apply elem_of_dom. simpl. rewrite Hdom.
    apply elem_of_list_to_set, list_elem_of_fmap. eauto.
Qed.

End PassAgain.

(** X1. Two passes in a row over the same children: the second one
    returns normally and leaves the dictionary, every broker object, the
    clients and the configuration state as the first one left them. *)
Theorem BrokerMap_configure_idempotent
    (w : World) (z : ZooKeeper.znode) (ids : list Z) :
  registry_wf w →
  ZooKeeper.nodes (zookeeper w) !! "/brokers/ids"%string = Some z →
  ids_of (ZooKeeper.children z) = Some ids →
  ∃ w1 w2,
    BrokerMap._configure w = (Return tt, w1) ∧
    BrokerMap._configure w1 = (Return tt, w2) ∧
    _BrokerMap__brokers w2 = _BrokerMap__brokers w1 ∧
    heap w2 = heap w1 ∧
    clients w2 = clients w1 ∧
    map_state w2 = map_state w1.
Proof.
  intros Hwf Hz Hids.
  destruct (BrokerMap_configure_pass w z ids Hwf Hz Hids)
    as (w1 & Hrun & [Hzk _ _ Hdom _ _ _ _ _]).
  exists w1, (asked_children w1). split; [done|].
  split; [|done].
  apply (BrokerMap_configure_same_children w1 z ids); [|done..].
  by rewrite Hzk, asked_children_nodes.
Qed.

Lemma BrokerMap_configure_idempotent_witness :
  ∃ w1 w2,
    BrokerMap._configure example_world_changed = (Return tt, w1) ∧
    BrokerMap._configure w1 = (Return tt, w2) ∧
    _BrokerMap__brokers w2 = _BrokerMap__brokers w1 ∧
    heap w2 = heap w1 ∧
    clients w2 = clients w1 ∧
    map_state w2 = map_state w1.
Proof.
  apply (BrokerMap_configure_idempotent example_world_changed
           (ZooKeeper.Znode "" ["2"; "3"]) [2; 3]).
  - apply (bool_decide_unpack (registry_wf example_world_changed)).
    vm_compute. exact I.
  - vm_compute. reflexivity.
  - vm_compute. reflexivity.
Defined.

Lemma ids_of_bad_name (names : list string) (s : string) :
  s ∈ names → Py.int_of_str s = None → ids_of names = None.
Proof.
  intros Hs Hbad. unfold ids_of.
  destruct (mapM Py.int_of_str names) as [ids|] eqn:Hm; [|done].
  assert (Hall : is_Some (mapM Py.int_of_str names)) by eauto.
  apply mapM_is_Some in Hall.
  rewrite Forall_forall in Hall. specialize (Hall s Hs). simpl in Hall.
  rewrite Hbad in Hall. by destruct Hall.
Qed.

(** X2. When one child of /brokers/ids has a name that [int] rejects, the
    pass raises [ValueError] before it looks at the dictionary: no broker
    is added, removed or marked dead, although the watch on the path has
    been left. *)
Theorem BrokerMap_configure_bad_child
    (w : World) (z : ZooKeeper.znode) (s : string) :
  ZooKeeper.nodes (zookeeper w) !! "/brokers/ids"%string = Some z →
  s ∈ ZooKeeper.children z →
  Py.int_of_str s = None →
  ∃ w',
    BrokerMap._configure w = (Raise ValueError, w') ∧
    _BrokerMap__brokers w' = _BrokerMap__brokers w ∧
    heap w' = heap w ∧
    ("/brokers/ids"%string, ZooKeeper.WatchBrokerMap)
      ∈ ZooKeeper.watches (zookeeper w').
Proof.
  intros Hz Hs Hbad.
  rewrite (BrokerMap_configure_bad_children w z Hz
             (ids_of_bad_name _ s Hs Hbad)).
  exists (asked_children w). repeat (split; [done|]).
  by apply get_children_arms with z.
Qed.

Lemma BrokerMap_configure_bad_child_witness :
  ∃ w',
    BrokerMap._configure example_world_bad_child = (Raise ValueError, w') ∧
    _BrokerMap__brokers w' = _BrokerMap__brokers example_world_bad_child ∧
    heap w' = heap example_world_bad_child ∧
    ("/brokers/ids"%string, ZooKeeper.WatchBrokerMap)
      ∈ ZooKeeper.watches (zookeeper w').
Proof.
  apply (BrokerMap_configure_bad_child example_world_bad_child
           (ZooKeeper.Znode "" ["2"; "three"]) "three").
  - vm_compute. reflexivity.
  - apply (bool_decide_unpack ("three"%string ∈ ["2"; "three"]%string)).
    vm_compute. exact I.
  - vm_compute. reflexivity.
Defined.

(** X3. Whatever its outcome, a pass of the registry reads and writes no
    address: every broker object that existed keeps its id, host, port,
    client and configuration state, and a dead one stays dead; no [Client]
    is built; the registry stays sound. *)
Theorem BrokerMap_configure_touches_liveness_only (w : World) :
  registry_wf w →
  registry_wf (snd (BrokerMap._configure w)) ∧
  clients (snd (BrokerMap._configure w)) = clients w ∧
  ∀ r b, heap w !! r = Some b →
         ∃ b', heap (snd (BrokerMap._configure w)) !! r = Some b' ∧
               id b' = id b ∧
               _Broker__host b' = _Broker__host b ∧
               _Broker__port b' = _Broker__port b ∧
               _Broker__client b' = _Broker__client b ∧
               broker_state b' = broker_state b ∧
               (is_dead b = true → is_dead b' = true).
Proof.
  intros Hwf.
  destruct (BrokerMap_configure_frame w Hwf) as [_ Hcl _ Hheap Hwf'].
  split; [done|]. split; [done|].
  intros r b Hb. destruct (Hheap r b Hb) as [-> | ->]; eexists;
    (split; [reflexivity|]); by repeat split.
Qed.

Lemma BrokerMap_configure_touches_liveness_only_witness :
  registry_wf (snd (BrokerMap._configure example_world_changed)) ∧
  clients (snd (BrokerMap._configure example_world_changed))
  = clients example_world_changed ∧
  ∀ r b, heap example_world_changed !! r = Some b →
         ∃ b', heap (snd (BrokerMap._configure example_world_changed)) !! r
               = Some b' ∧
               id b' = id b ∧
               _Broker__host b' = _Broker__host b ∧
               _Broker__port b' = _Broker__port b ∧
               _Broker__client b' = _Broker__client b ∧
               broker_state b' = broker_state b ∧
               (is_dead b = true → is_dead b' = true).
Proof.
  apply (BrokerMap_configure_touches_liveness_only example_world_changed).
  apply (bool_decide_unpack (registry_wf example_world_changed)).
  vm_compute. exact I.
Defined.

(** ** Refreshes of a broker *)

(** X4. When the broker's node does not exist, [Broker._configure] lets
    [NoNodeException] through as it is (it is the registry that turns it
    into [ImproperlyConfigured]); the object and the dictionary are as
    they were. *)
Theorem Broker_configure_missing_node
    (w : World) (self : nat) (b : BrokerObject) :
  heap w !! self = Some b →
  ZooKeeper.nodes (zookeeper w) !! ("/brokers/ids/" +:+ Py.str (id b))%string
    = None →
  ∃ w',
    Broker._configure self w = (Raise NoNodeException, w') ∧
    heap w' = heap w ∧
    _BrokerMap__brokers w' = _BrokerMap__brokers w.
Proof.
  intros Hself Hz. rewrite (Broker_configure_no_node w self b Hself Hz).
  by eexists.
Qed.

Lemma Broker_configure_missing_node_witness :
  ∃ w',
    Broker._configure 0 example_world_no_node = (Raise NoNodeException, w') ∧
    heap w' = heap example_world_no_node ∧
    _BrokerMap__brokers w' = _BrokerMap__brokers example_world_no_node.
Proof.
  apply (Broker_configure_missing_node example_world_no_node 0
           (fresh_broker 1)); vm_compute; reflexivity.
Defined.

(** X5. A node value that does not split into exactly three fields at the
    colons makes [Broker._configure] raise [ValueError] with no attribute
    assigned: every broker object is as it was. *)
Theorem Broker_configure_wrong_field_count
    (w : World) (self : nat) (b : BrokerObject) (z : ZooKeeper.znode) :
  heap w !! self = Some b →
  ZooKeeper.nodes (zookeeper w) !! ("/brokers/ids/" +:+ Py.str (id b))%string
    = Some z →
  length (Py.split ":" (ZooKeeper.data z)) ≠ 3%nat →
  ∃ w',
    Broker._configure self w = (Raise ValueError, w') ∧
    heap w' = heap w ∧
    _BrokerMap__brokers w' = _BrokerMap__brokers w.
Proof.
  intros Hself Hz Hlen.
  rewrite (Broker_configure_fetch w self b Hself z Hz).
  destruct (Py.split ":" (ZooKeeper.data z)) as [|? [|? [|? [|]]]];
    try (by destruct Hlen); by eexists.
Qed.

Lemma Broker_configure_wrong_field_count_witness :
  ∃ w',
    Broker._configure 0 example_world_bad_arity = (Raise ValueError, w') ∧
    heap w' = heap example_world_bad_arity ∧
    _BrokerMap__brokers w' = _BrokerMap__brokers example_world_bad_arity.
Proof.
  apply (Broker_configure_wrong_field_count example_world_bad_arity 0
           (fresh_broker 1)
           (ZooKeeper.Znode "7:10.0.0.5:9092:extra" []));
    vm_compute; try reflexivity.
  intros H. discriminate H.
Defined.

(** X6. A node value of three fields whose third [int] rejects makes
    [Broker._configure] raise [ValueError] once the unpacking has assigned
    the host: afterwards the host is the second field, and the port, like
    everything else of the object, is what it was. *)
Theorem Broker_configure_rejected_port
    (w : World) (self : nat) (b : BrokerObject) (z : ZooKeeper.znode)
    (creator host port : string) :
  heap w !! self = Some b →
  ZooKeeper.nodes (zookeeper w) !! ("/brokers/ids/" +:+ Py.str (id b))%string
    = Some z →
  Py.split ":" (ZooKeeper.data z) = [creator; host; port] →
  Py.int_of_str port = None →
  ∃ w',
    Broker._configure self w = (Raise ValueError, w') ∧
    heap w' !! self = Some (set__host (Some host) b) ∧
    (∀ r, r ≠ self → heap w' !! r = heap w !! r).
Proof.
  intros Hself Hz Hsplit Hport.
  rewrite (Broker_configure_fetch w self b Hself z Hz), Hsplit, Hport.
  eexists. split; [reflexivity|]. simpl. split.
  - apply list_lookup_insert_eq. by eapply lookup_lt_Some.
  - intros r Hne. by rewrite list_lookup_insert_ne.
Qed.

Lemma Broker_configure_rejected_port_witness :
  ∃ w',
    Broker._configure 1 example_world = (Raise ValueError, w') ∧
    heap w' !! 1%nat
    = Some (set__host (Some "10.0.0.6"%string) (fresh_broker 2)) ∧
    (∀ r, r ≠ 1%nat → heap w' !! r = heap example_world !! r).
Proof.
  apply (Broker_configure_rejected_port example_world 1 (fresh_broker 2)
           (ZooKeeper.Znode "7:10.0.0.6:http" []) "7" "10.0.0.6" "http");
    vm_compute; reflexivity.
Defined.

(** X7. Whatever its outcome, [Broker._configure] works in place and on
    its own object only: the heap has as many objects as before, every
    other object is untouched, the object itself keeps its id, its
    liveness, its client and its configuration state, and the registry's
    dictionary and the clients are as they were. *)
Theorem Broker_configure_in_place
    (w : World) (self : nat) (b : BrokerObject) :
  heap w !! self = Some b →
  length (heap (snd (Broker._configure self w))) = length (heap w) ∧
  (∀ r, r ≠ self →
        heap (snd (Broker._configure self w)) !! r = heap w !! r) ∧
  (∃ b', heap (snd (Broker._configure self w)) !! self = Some b' ∧
         id b' = id b ∧ is_dead b' = is_dead b ∧
         _Broker__client b' = _Broker__client b ∧
         broker_state b' = broker_state b) ∧
  _BrokerMap__brokers (snd (Broker._configure self w))
  = _BrokerMap__brokers w ∧
  clients (snd (Broker._configure self w)) = clients w.
Proof.
  intros Hself.
  destruct (Broker_configure_frame w self b Hself)
    as [_ Hmap _ Hcl (b' & -> & Hid & Hdead & Hc & Hst)].
  split; [apply length_insert|].
  split; [intros r Hne; by rewrite list_lookup_insert_ne|].
  split; [|done].
  exists b'. split; [|done].
  apply list_lookup_insert_eq. by eapply lookup_lt_Some.
Qed.

Lemma Broker_configure_in_place_witness :
  length (heap (snd (Broker._configure 0 example_world_bad_port)))
  = length (heap example_world_bad_port) ∧
  (∀ r, r ≠ 0%nat →
        heap (snd (Broker._configure 0 example_world_bad_port)) !! r
        = heap example_world_bad_port !! r) ∧
  (∃ b', heap (snd (Broker._configure 0 example_world_bad_port)) !! 0%nat
         = Some b' ∧
         id b' = 1 ∧ is_dead b' = false ∧
         _Broker__client b' = None ∧
         broker_state b' = Configured) ∧
  _BrokerMap__brokers (snd (Broker._configure 0 example_world_bad_port))
  = _BrokerMap__brokers example_world_bad_port ∧
  clients (snd (Broker._configure 0 example_world_bad_port))
  = clients example_world_bad_port.
Proof.
  apply (Broker_configure_in_place example_world_bad_port 0
           {| id := 1; _Broker__host := Some "10.0.0.5"%string;
              _Broker__port := Some 9092; is_dead := false;
              _Broker__client := None; broker_state := Configured |}).
  vm_compute. reflexivity.
Defined.

(** ** The accessors of the registry *)

(** The first guarded call on a registry that is not configured yet runs
    one pass and then the method. *)
Lemma BrokerMap_first_use {A} (method : M A)
    (w : World) (z : ZooKeeper.znode) (ids : list Z) :
  registry_wf w →
  map_state w ≠ Configured →
  ZooKeeper.nodes (zookeeper w) !! "/brokers/ids"%string = Some z →
  ids_of (ZooKeeper.children z) = Some ids →
  ∃ w1, pass ids (set_map_state Configuring w) w1 ∧
        BrokerMap.configured method w
        = method (set_map_state Configured w1).
Proof.
  intros Hwf Hst Hz Hids.
  destruct (BrokerMap_configure_pass (set_map_state Configuring w) z ids
              Hwf Hz Hids) as (w1 & Hrun & Hpass).
  exists w1. split; [done|].
  rewrite BrokerMap_configured_eq, Hrun. by destruct (map_state w).
Qed.

(** X8. The first [len] of a registry that is not configured yet, when
    the children of /brokers/ids denote [ids]: it sends one request, the
    registry is configured afterwards, and the answer is the number of
    distinct ids; asked again, it gives the same answer and leaves the
    world as it is. *)
Theorem BrokerMap_len_first_use
    (w : World) (z : ZooKeeper.znode) (ids : list Z) :
  registry_wf w →
  map_state w ≠ Configured →
  ZooKeeper.nodes (zookeeper w) !! "/brokers/ids"%string = Some z →
  ids_of (ZooKeeper.children z) = Some ids →
  ∃ w',
    BrokerMap.__len__ w
    = (Return (size (list_to_set (Py.Int <$> ids) : gset Py.value)), w') ∧
    map_state w' = Configured ∧
    ZooKeeper.requests (zookeeper w')
    = ZooKeeper.requests (zookeeper w)
      ++ [ZooKeeper.GetChildren "/brokers/ids" ZooKeeper.WatchBrokerMap] ∧
    BrokerMap.__len__ w'
    = (Return (size (list_to_set (Py.Int <$> ids) : gset Py.value)), w').
Proof.
  intros Hwf Hst Hz Hids. unfold BrokerMap.__len__ at 1.
  destruct (BrokerMap_first_use
              (λ w, (Return (size (_BrokerMap__brokers w)), w))
              w z ids Hwf Hst Hz Hids)
    as (w1 & [Hzk _ _ Hdom _ _ _ _ _] & ->).
  exists (set_map_state Configured w1). simpl.
  assert (Hsize : size (_BrokerMap__brokers w1)
                  = size (list_to_set (Py.Int <$> ids) : gset Py.value)).
  { by rewrite <- Hdom, size_dom. }
  rewrite Hsize. split; [done|]. split; [done|]. split.
  - rewrite Hzk. apply (asked_children_requests (set_map_state Configuring w)).
  - unfold BrokerMap.__len__. rewrite BrokerMap_configured_eq. simpl.
    by rewrite Hsize.
Qed.

Lemma BrokerMap_len_first_use_witness :
  ∃ w',
    BrokerMap.__len__ (new_world example_zookeeper)
    = (Return (size (list_to_set (Py.Int <$> [1; 2]) : gset Py.value)), w') ∧
    map_state w' = Configured ∧
    ZooKeeper.requests (zookeeper w')
    = ZooKeeper.requests (zookeeper (new_world example_zookeeper))
      ++ [ZooKeeper.GetChildren "/brokers/ids" ZooKeeper.WatchBrokerMap] ∧
    BrokerMap.__len__ w'
    = (Return (size (list_to_set (Py.Int <$> [1; 2]) : gset Py.value)), w').
Proof.
  apply (BrokerMap_len_first_use (new_world example_zookeeper)
           (ZooKeeper.Znode "" ["1"; "2"]) [1; 2]).
  - apply registry_wf_new_world.
  - vm_compute. discriminate.
  - vm_compute. reflexivity.
  - vm_compute. reflexivity.
Defined.

(** X9. The first [get] of a registry that is not configured yet, when
    the children of /brokers/ids denote [ids]: the registry is configured
    by the call; for an id among [ids] the call returns a broker whose [id]
    is that id, and for a key that is not among them it raises
    [KeyError]. *)
Theorem BrokerMap_get_first_use
    (w : World) (z : ZooKeeper.znode) (ids : list Z) :
  registry_wf w →
  map_state w ≠ Configured →
  ZooKeeper.nodes (zookeeper w) !! "/brokers/ids"%string = Some z →
  ids_of (ZooKeeper.children z) = Some ids →
  ∃ w',
    map_state w' = Configured ∧
    (∀ n, n ∈ ids →
          ∃ r b, BrokerMap.get (Py.Int n) w = (Return r, w') ∧
                 heap w' !! r = Some b ∧ id b = n) ∧
    (∀ k, k ∉ Py.Int <$> ids →
          BrokerMap.get k w = (Raise KeyError, w')).
Proof.
  intros Hwf Hst Hz Hids.
  destruct (BrokerMap_configure_pass (set_map_state Configuring w) z ids
              Hwf Hz Hids) as (w1 & Hrun & Hpass).
  assert (Hget1 : ∀ k, BrokerMap.get k w
                       = dict_getitem k (set_map_state Configured w1)).
  { intros k. unfold BrokerMap.get.
    rewrite BrokerMap_configured_eq, Hrun. by destruct (map_state w). }
  destruct Hpass as [_ _ _ Hdom _ _ _ _ Hwf1].
  exists (set_map_state Configured w1). split; [done|]. split.
  - intros n Hn.
    assert (Hin : Py.Int n ∈ dom (_BrokerMap__brokers w1)).
    { rewrite Hdom. apply elem_of_list_to_set, list_elem_of_fmap. eauto. }
    apply elem_of_dom in Hin as [r Hr].
    destruct (registry_wf_lookup w1 _ r Hwf1 Hr) as (b & Hb & Hk).
    exists r, b. rewrite Hget1. unfold dict_getitem. simpl. rewrite Hr.
    split; [done|]. split; [done|]. congruence.
  - intros k Hk. rewrite Hget1. unfold dict_getitem. simpl.
    destruct (_BrokerMap__brokers w1 !! k) as [r|] eqn:Hr; [|done].
    destruct Hk. apply (elem_of_list_to_set (C := gset Py.value)).
    rewrite <- Hdom. apply elem_of_dom. eauto.
Qed.

Lemma BrokerMap_get_first_use_witness :
  ∃ w',
    map_state w' = Configured ∧
    (∀ n, n ∈ [1; 2] →
          ∃ r b, BrokerMap.get (Py.Int n) (new_world example_zookeeper)
                 = (Return r, w') ∧
                 heap w' !! r = Some b ∧ id b = n) ∧
    (∀ k, k ∉ Py.Int <$> [1; 2] →
          BrokerMap.get k (new_world example_zookeeper)
          = (Raise KeyError, w')).
Proof.
  apply (BrokerMap_get_first_use (new_world example_zookeeper)
           (ZooKeeper.Znode "" ["1"; "2"]) [1; 2]).
  - apply registry_wf_new_world.
  - vm_compute. discriminate.
  - vm_compute. reflexivity.
  - vm_compute. reflexivity.
Defined.

(** X10. On a configured registry the accessors only read, and they agree
    with one another: [keys], [__iter__] and [values] are the two
    columns of [items], in the same order; [len] is the number of items;
    no key occurs twice; and [get] returns [r] for [k] exactly when
    [(k, r)] is an item. *)
Theorem BrokerMap_accessors_agree (w : World) :
  map_state w = Configured →
  ∃ its,
    BrokerMap.items w = (Return its, w) ∧
    BrokerMap.keys w = (Return its.*1, w) ∧
    BrokerMap.__iter__ w = (Return its.*1, w) ∧
    BrokerMap.values w = (Return its.*2, w) ∧
    BrokerMap.__len__ w = (Return (length its), w) ∧
    NoDup its.*1 ∧
    (∀ k r, (k, r) ∈ its ↔ BrokerMap.get k w = (Return r, w)) ∧
    (∀ k, k ∉ its.*1 ↔ BrokerMap.get k w = (Raise KeyError, w)).
Proof.
  intros Hst. exists (map_to_list (_BrokerMap__brokers w)).
  unfold BrokerMap.items, BrokerMap.keys, BrokerMap.__iter__,
    BrokerMap.values, BrokerMap.__len__, BrokerMap.get.
  rewrite !BrokerMap_configured_eq, Hst.
  repeat (split; [done|]).
  split; [by rewrite length_map_to_list|].
  split; [apply NoDup_fst_map_to_list|].
  split.
  - intros k r. rewrite elem_of_map_to_list, BrokerMap_configured_eq, Hst.
    unfold dict_getitem.
    destruct (_BrokerMap__brokers w !! k); split; congruence.
  - intros k. rewrite BrokerMap_configured_eq, Hst. unfold dict_getitem.
    rewrite list_elem_of_fmap.
    destruct (_BrokerMap__brokers w !! k) as [r|] eqn:Hk.
    + split; [|done]. intros Hnot. destruct Hnot.
      exists (k, r). split; [done|]. by apply elem_of_map_to_list.
    + split; [done|]. intros _ ([k' r] & -> & Hin).
      apply elem_of_map_to_list in Hin. simpl in Hk. congruence.
Qed.

Lemma BrokerMap_accessors_agree_witness :
  ∃ its,
    BrokerMap.items example_world = (Return its, example_world) ∧
    BrokerMap.keys example_world = (Return its.*1, example_world) ∧
    BrokerMap.__iter__ example_world = (Return its.*1, example_world) ∧
    BrokerMap.values example_world = (Return its.*2, example_world) ∧
    BrokerMap.__len__ example_world = (Return (length its), example_world) ∧
    NoDup its.*1 ∧
    (∀ k r, (k, r) ∈ its
            ↔ BrokerMap.get k example_world = (Return r, example_world)) ∧
    (∀ k, k ∉ its.*1
          ↔ BrokerMap.get k example_world = (Raise KeyError, example_world)).
Proof.
  apply (BrokerMap_accessors_agree example_world).
  vm_compute. reflexivity.
Defined.

(** ** The accessors of a broker *)

(** The first guarded read of a broker that is not configured yet, when
    its node holds a value that parses. *)
Lemma Broker_first_read {A} (f : BrokerObject → A)
    (w : World) (self : nat) (b : BrokerObject) (z : ZooKeeper.znode)
    (creator host port : string) (p : Z) :
  heap w !! self = Some b →
  broker_state b ≠ Configured →
  ZooKeeper.nodes (zookeeper w) !! ("/brokers/ids/" +:+ Py.str (id b))%string
    = Some z →
  Py.split ":" (ZooKeeper.data z) = [creator; host; port] →
  Py.int_of_str port = Some p →
  Broker.configured self (x <- load self ;; ret (f x)) w
  = (Return (f (set_broker_state Configured
                  (set__port (Some p) (set__host (Some host) b)))),
     set_heap
       (<[self := set_broker_state Configured
                    (set__port (Some p) (set__host (Some host) b))]> (heap w))
       (set_zookeeper
          (snd (ZooKeeper.get ("/brokers/ids/" +:+ Py.str (id b))
                  (ZooKeeper.WatchBroker self) (zookeeper w))) w)).
Proof.
  intros Hself Hst Hz Hsplit Hport.
  rewrite (Broker_configured_eq _ w self b Hself).
  set (b1 := set_broker_state Configuring b).
  set (w1 := set_heap (<[self := b1]> (heap w)) w).
  assert (Hlt : (self < length (heap w))%nat) by (by eapply lookup_lt_Some).
  assert (Hself1 : heap w1 !! self = Some b1).
  { unfold w1. simpl. by apply list_lookup_insert_eq. }
  assert (Hrun : Broker._configure self w1
            = (Return tt,
               set_heap (<[self := set__port (Some p) (set__host (Some host) b1)]>
                           (heap w))
                 (set_zookeeper
                    (snd (ZooKeeper.get ("/brokers/ids/" +:+ Py.str (id b))
                            (ZooKeeper.WatchBroker self) (zookeeper w))) w))).
  { rewrite (Broker_configure_fetch w1 self b1 Hself1 z Hz), Hsplit, Hport.
    unfold w1. simpl. by rewrite list_insert_insert_eq. }
  rewrite Hrun. clear Hrun.
  unfold bind, store, load, ret. simpl.
  rewrite list_lookup_insert_eq by done. simpl.
  rewrite list_lookup_insert_eq by (by rewrite length_insert).
  rewrite list_insert_insert_eq.
  by destruct (broker_state b).
Qed.

(** X11. The first read of [host] on a broker that is not configured yet,
    when its node holds [creator:host:port] with a port that [int]
    accepts: one [get] is sent, the call returns the host field, the
    broker is configured, and from then on [host] and [port] return the
    two fields and leave the world as it is. *)
Theorem Broker_host_first_read
    (w : World) (self : nat) (b : BrokerObject) (z : ZooKeeper.znode)
    (creator host port : string) (p : Z) :
  heap w !! self = Some b →
  broker_state b ≠ Configured →
  ZooKeeper.nodes (zookeeper w) !! ("/brokers/ids/" +:+ Py.str (id b))%string
    = Some z →
  Py.split ":" (ZooKeeper.data z) = [creator; host; port] →
  Py.int_of_str port = Some p →
  ∃ w',
    Broker.host self w = (Return (Some host), w') ∧
    (broker_state <$> heap w' !! self) = Some Configured ∧
    ZooKeeper.requests (zookeeper w')
    = ZooKeeper.requests (zookeeper w)
      ++ [ZooKeeper.Get ("/brokers/ids/" +:+ Py.str (id b))
            (ZooKeeper.WatchBroker self)] ∧
    Broker.host self w' = (Return (Some host), w') ∧
    Broker.port self w' = (Return (Some p), w').
Proof.
  intros Hself Hst Hz Hsplit Hport.
  unfold Broker.host at 1.
  rewrite (Broker_first_read _Broker__host w self b z creator host port p)
    by done.
  set (b' := set_broker_state Configured _).
  set (w' := set_heap _ _).
  assert (Hself' : heap w' !! self = Some b').
  { unfold w'. simpl. apply list_lookup_insert_eq. by eapply lookup_lt_Some. }
  exists w'. split; [done|]. split; [by rewrite Hself'|]. split.
  - unfold w'. simpl. unfold ZooKeeper.get. by rewrite Hz.
  - destruct (Broker_read _Broker__host self w') as (_ & _ & Hh).
    destruct (Broker_read _Broker__port self w') as (_ & _ & Hp).
    split; [by apply (Hh b')|by apply (Hp b')].
Qed.

Lemma Broker_host_first_read_witness :
  ∃ w',
    Broker.host 0 example_world = (Return (Some "10.0.0.5"%string), w') ∧
    (broker_state <$> heap w' !! 0%nat) = Some Configured ∧
    ZooKeeper.requests (zookeeper w')
    = ZooKeeper.requests (zookeeper example_world)
      ++ [ZooKeeper.Get "/brokers/ids/1" (ZooKeeper.WatchBroker 0)] ∧
    Broker.host 0 w' = (Return (Some "10.0.0.5"%string), w') ∧
    Broker.port 0 w' = (Return (Some 9092), w').
Proof.
  refine (Broker_host_first_read example_world 0 (fresh_broker 1)
            (ZooKeeper.Znode "7:10.0.0.5:9092" []) "7" "10.0.0.5" "9092" 9092
            _ _ _ _ _); vm_compute; try reflexivity.
  discriminate.
Defined.

(** X12. The first access to [client] on a broker that has no client and
    is not configured yet, when its node holds [creator:host:port] with a
    port that [int] accepts: the broker is configured on the way, exactly
    one [Client] is built, from that host and that port, and it is the
    object returned and kept by the broker. *)
Theorem Broker_client_first_access
    (w : World) (self : nat) (b : BrokerObject) (z : ZooKeeper.znode)
    (creator host port : string) (p : Z) :
  heap w !! self = Some b →
  _Broker__client b = None →
  broker_state b ≠ Configured →
  ZooKeeper.nodes (zookeeper w) !! ("/brokers/ids/" +:+ Py.str (id b))%string
    = Some z →
  Py.split ":" (ZooKeeper.data z) = [creator; host; port] →
  Py.int_of_str port = Some p →
  ∃ w' b',
    Broker.client self w = (Return (length (clients w)), w') ∧
    clients w'
    = clients w ++ [{| client_host := Some host; client_port := Some p |}] ∧
    heap w' !! self = Some b' ∧
    _Broker__client b' = Some (length (clients w)) ∧
    _Broker__host b' = Some host ∧
    _Broker__port b' = Some p ∧
    broker_state b' = Configured.
Proof.
  intros Hself Hc Hst Hz Hsplit Hport.
  assert (Heq : Broker.client self w =
            (h <- Broker.host self ;;
             q <- Broker.port self ;;
             c <- new_client h q ;;
             store self (set__client (Some c)) ;; ret c) w).
  { unfold Broker.client. unfold bind at 1, load. by rewrite Hself, Hc. }
  rewrite Heq. clear Heq. rewrite bind_eq.
  unfold Broker.host at 1.
  rewrite (Broker_first_read _Broker__host w self b z creator host port p)
    by done.
  set (b1 := set_broker_state Configured _).
  set (w1 := set_heap _ _).
  assert (Hself1 : heap w1 !! self = Some b1).
  { unfold w1. simpl. apply list_lookup_insert_eq. by eapply lookup_lt_Some. }
  destruct (Broker_read _Broker__port self w1) as (_ & _ & Hp).
  fold (Broker.port self) in Hp.
  rewrite bind_eq, (Hp b1 Hself1 eq_refl).
  assert (Hcl1 : clients w1 = clients w) by done.
  clearbody w1.
  unfold bind, new_client, store, ret. simpl.
  rewrite Hself1, Hcl1.
  eexists _, _. split; [reflexivity|]. simpl. split; [done|]. split.
  - apply list_lookup_insert_eq. by eapply lookup_lt_Some.
  - done.
Qed.

Lemma Broker_client_first_access_witness :
  ∃ w' b',
    Broker.client 0 example_world = (Return (length (clients example_world)), w') ∧
    clients w'
    = clients example_world
      ++ [{| client_host := Some "10.0.0.5"%string;
             client_port := Some 9092 |}] ∧
    heap w' !! 0%nat = Some b' ∧
    _Broker__client b' = Some (length (clients example_world)) ∧
    _Broker__host b' = Some "10.0.0.5"%string ∧
    _Broker__port b' = Some 9092 ∧
    broker_state b' = Configured.
Proof.
  refine (Broker_client_first_access example_world 0 (fresh_broker 1)
            (ZooKeeper.Znode "7:10.0.0.5:9092" []) "7" "10.0.0.5" "9092" 9092
            _ _ _ _ _ _); vm_compute; try reflexivity.
  discriminate.
Defined.

(** ** What holds in every reachable world *)

(** X13. In every world reached from a fresh cluster handle, the broker
    that the registry holds under a key has that key as its [id], and no
    other key leads to the same object. *)
Theorem registry_values_carry_their_key
    (zk : ZooKeeper.t) (es : list event) (k : Py.value) (r : nat) :
  _BrokerMap__brokers (run es (new_world zk)) !! k = Some r →
  (∃ b, heap (run es (new_world zk)) !! r = Some b ∧ k = Py.Int (id b)) ∧
  (∀ k', _BrokerMap__brokers (run es (new_world zk)) !! k' = Some r → k' = k).
Proof.
  intros Hk. pose proof (registry_wf_reachable zk es) as Hwf. split.
  - by apply registry_wf_lookup.
  - intros k' Hk'. by apply (registry_wf_inj _ k' k r Hwf).
Qed.

Lemma registry_values_carry_their_key_witness :
  (∃ b, heap (run [ReadLen; ReadHost 0] (new_world example_zookeeper)) !! 0%nat
        = Some b ∧ Py.Int 1 = Py.Int (id b)) ∧
  (∀ k', _BrokerMap__brokers
           (run [ReadLen; ReadHost 0] (new_world example_zookeeper)) !! k'
         = Some 0%nat → k' = Py.Int 1).
Proof.
  apply (registry_values_carry_their_key example_zookeeper
           [ReadLen; ReadHost 0] (Py.Int 1) 0).
  vm_compute. reflexivity.
Defined.

(** X14. An id that leaves and comes back.  The pass that misses the id
    removes its key and marks its broker dead; the later pass that sees
    the id again binds it to a new object, with host and port unset, at
    another reference; the old object is still the dead one. *)
Theorem BrokerMap_configure_returning_id
    (w : World) (z1 z2 : ZooKeeper.znode) (ids1 ids2 : list Z)
    (n : Z) (r : nat) (b : BrokerObject) :
  registry_wf w →
  _BrokerMap__brokers w !! Py.Int n = Some r →
  heap w !! r = Some b →
  ZooKeeper.nodes (zookeeper w) !! "/brokers/ids"%string = Some z1 →
  ids_of (ZooKeeper.children z1) = Some ids1 →
  n ∉ ids1 →
  ids_of (ZooKeeper.children z2) = Some ids2 →
  n ∈ ids2 →
  ∃ w1 w2 r',
    BrokerMap._configure w = (Return tt, w1) ∧
    _BrokerMap__brokers w1 !! Py.Int n = None ∧
    BrokerMap._configure
      (set_zookeeper
         (ZooKeeper.change "/brokers/ids" (Some z2) (zookeeper w1)) w1)
    = (Return tt, w2) ∧
    _BrokerMap__brokers w2 !! Py.Int n = Some r' ∧
    r' ≠ r ∧
    heap w2 !! r' = Some (fresh_broker n) ∧
    heap w2 !! r = Some (set_is_dead true b).
Proof.
  intros Hwf Hn Hb Hz1 Hids1 Hout Hids2 Hin.
  destruct (BrokerMap_configure_pass w z1 ids1 Hwf Hz1 Hids1)
    as (w1 & Hrun1 & [_ _ _ _ _ Hrem1 _ _ Hwf1]).
  destruct (Hrem1 (Py.Int n) r b Hn Hb) as [Hgone Hdead].
  { intros (m & [= ->] & Hm)%list_elem_of_fmap. done. }
  set (w1c := set_zookeeper
                (ZooKeeper.change "/brokers/ids" (Some z2) (zookeeper w1)) w1).
  assert (Hz2 : ZooKeeper.nodes (zookeeper w1c) !! "/brokers/ids"%string
                = Some z2).
  { unfold w1c. simpl. by rewrite lookup_insert_eq. }
  destruct (BrokerMap_configure_pass w1c z2 ids2 Hwf1 Hz2 Hids2)
    as (w2 & Hrun2 & [_ _ _ _ Hnew2 _ _ Hheap2 _]).
  destruct (Hnew2 n Hin Hgone) as (r' & Hr' & Hfresh & Hb').
  exists w1, w2, r'. repeat (split; [done|]).
  split; [|split; [done|]].
  - intros ->. unfold w1c in Hfresh. simpl in Hfresh. congruence.
  - by destruct (Hheap2 r _ Hdead) as [-> | ->].
Qed.

Lemma BrokerMap_configure_returning_id_witness :
  ∃ w1 w2 r',
    BrokerMap._configure example_world_left = (Return tt, w1) ∧
    _BrokerMap__brokers w1 !! Py.Int 1 = None ∧
    BrokerMap._configure
      (set_zookeeper
         (ZooKeeper.change "/brokers/ids"
            (Some (ZooKeeper.Znode "" ["1"; "2"])) (zookeeper w1)) w1)
    = (Return tt, w2) ∧
    _BrokerMap__brokers w2 !! Py.Int 1 = Some r' ∧
    r' ≠ 0%nat ∧
    heap w2 !! r' = Some (fresh_broker 1) ∧
    heap w2 !! 0%nat
    = Some (set_is_dead true
              {| id := 1; _Broker__host := Some "10.0.0.5"%string;
                 _Broker__port := Some 9092; is_dead := false;
                 _Broker__client := None; broker_state := Configured |}).
Proof.
  apply (BrokerMap_configure_returning_id example_world_left
           (ZooKeeper.Znode "" ["2"]) (ZooKeeper.Znode "" ["1"; "2"])
           [2] [1; 2] 1 0).
  - apply (bool_decide_unpack (registry_wf example_world_left)).
    vm_compute. exact I.
  - vm_compute. reflexivity.
  - vm_compute. reflexivity.
  - vm_compute. reflexivity.
  - vm_compute. reflexivity.
  - apply (bool_decide_unpack (1 ∉ [2])). vm_compute. exact I.
  - vm_compute. reflexivity.
  - apply (bool_decide_unpack (1 ∈ [1; 2])). vm_compute. exact I.
Defined.

(** ** Dead brokers stay dead *)

Lemma keeps_liveness_refl w : keeps_liveness w w.
Proof. intros r b Hb. eauto. Qed.

Lemma keeps_liveness_trans w1 w2 w3 :
  keeps_liveness w1 w2 → keeps_liveness w2 w3 → keeps_liveness w1 w3.
Proof.
  intros H12 H23 r b Hb.
  destruct (H12 r b Hb) as (b2 & Hb2 & Hd2).
  destruct (H23 r b2 Hb2) as (b3 & Hb3 & Hd3).
  exists b3. split; [done|congruence].
Qed.

Lemma keeps_liveness_dead w w' : keeps_liveness w w' → keeps_dead w w'.
Proof.
  intros H r b Hb Hd. destruct (H r b Hb) as (b' & Hb' & Hd').
  exists b'. split; [done|congruence].
Qed.

Lemma keeps_dead_trans w1 w2 w3 :
  keeps_dead w1 w2 → keeps_dead w2 w3 → keeps_dead w1 w3.
Proof.
  intros H12 H23 r b Hb Hd.
  destruct (H12 r b Hb Hd) as (b2 & Hb2 & Hd2). eauto.
Qed.

Lemma keeps_liveness_insert (w : World) (r : nat) (b b' : BrokerObject) :
  heap w !! r = Some b →
  is_dead b' = is_dead b →
  keeps_liveness w (set_heap (<[r := b']> (heap w)) w).
Proof.
  intros Hr Hd r0 b0 Hb0. simpl.
  apply (insert_evolves _ _ _ _ _ (λ b0 b1, is_dead b1 = is_dead b0));
    [done| |done].
  intros b2 Hb2. congruence.
Qed.

Lemma store_keeps_liveness (r : nat) (f : BrokerObject → BrokerObject)
    (w : World) :
  (∀ b, is_dead (f b) = is_dead b) →
  keeps_liveness w (snd (store r f w)).
Proof.
  intros Hf. unfold store. destruct (heap w !! r) as [b|] eqn:Hr; simpl.
  - by apply (keeps_liveness_insert w r b).
  - apply keeps_liveness_refl.
Qed.

Lemma Broker_configure_keeps_liveness (self : nat) (w : World) :
  keeps_liveness w (snd (Broker._configure self w)).
Proof.
  destruct (heap w !! self) as [b|] eqn:Hself.
  - destruct (Broker_configure_frame w self b Hself)
      as [_ _ _ _ (b' & Hheap & _ & Hdead & _)].
    intros r b0 Hb0. rewrite Hheap.
    apply (insert_evolves _ _ _ _ _ (λ b0 b1, is_dead b1 = is_dead b0));
      [done| |done].
    intros b2 Hb2. congruence.
  - rewrite (Broker_configure_invalid w self Hself).
    apply keeps_liveness_refl.
Qed.

Lemma Broker_configured_keeps_liveness {A} (method : M A) (self : nat)
    (w : World) :
  read_only method →
  keeps_liveness w (snd (Broker.configured self method w)).
Proof.
  intros Hread.
  destruct (heap w !! self) as [b|] eqn:Hself.
  2:{ rewrite (Broker_configured_invalid _ w self Hself).
      apply keeps_liveness_refl. }
  rewrite (Broker_configured_eq method w self b Hself).
  destruct (decide (broker_state b = Configured)) as [Hc|Hnc].
  { rewrite Hc, Hread. apply keeps_liveness_refl. }
  set (w1 := set_heap (<[self := set_broker_state Configuring b]> (heap w)) w).
  assert (H01 : keeps_liveness w w1)
    by (by apply (keeps_liveness_insert w self b)).
  pose proof (Broker_configure_keeps_liveness self w1) as H12.
  assert (Hrest :
    keeps_liveness w
      (snd match Broker._configure self w1 with
           | (Return _, w2) =>
               (store self (set_broker_state Configured) ;; method) w2
           | (Raise e, w2) =>
               (Raise e, snd (store self (set_broker_state (broker_state b)) w2))
           end)).
  { destruct (Broker._configure self w1) as [[[]|e] w2]; simpl in H12 |- *.
    - eapply keeps_liveness_trans; [exact H01|].
      eapply keeps_liveness_trans; [exact H12|].
      rewrite bind_eq.
      pose proof (store_keeps_liveness self (set_broker_state Configured) w2
                    (λ _, eq_refl)) as Hs.
      destruct (store self (set_broker_state Configured) w2) as [[[]|e] w3];
        simpl in Hs |- *; [by rewrite Hread|done].
    - eapply keeps_liveness_trans; [exact H01|].
      eapply keeps_liveness_trans; [exact H12|].
      by apply store_keeps_liveness. }
  by destruct (broker_state b).
Qed.

Lemma Broker_client_keeps_liveness (self : nat) (w : World) :
  keeps_liveness w (snd (Broker.client self w)).
Proof.
  destruct (heap w !! self) as [b|] eqn:Hself.
  2:{ rewrite (Broker_client_invalid w self Hself). apply keeps_liveness_refl. }
  pose proof (Broker_client_spec w self b Hself) as Hspec.
  destruct (_Broker__client b) as [c|] eqn:Hc.
  { rewrite Hspec. apply keeps_liveness_refl. }
  clear Hspec.
  assert (Heq : Broker.client self w =
            (h <- Broker.host self ;;
             q <- Broker.port self ;;
             c <- new_client h q ;;
             store self (set__client (Some c)) ;; ret c) w).
  { unfold Broker.client. unfold bind at 1, load. by rewrite Hself, Hc. }
  rewrite Heq. clear Heq. rewrite bind_eq.
  pose proof (Broker_configured_keeps_liveness _ self w
                (read_attribute self _Broker__host)) as Hh.
  fold (Broker.host self) in Hh.
  destruct (Broker.host self w) as [[h|e] w1]; simpl in Hh; [|done].
  rewrite bind_eq.
  pose proof (Broker_configured_keeps_liveness _ self w1
                (read_attribute self _Broker__port)) as Hp.
  fold (Broker.port self) in Hp.
  destruct (Broker.port self w1) as [[q|e] w2]; simpl in Hp;
    [|by eapply keeps_liveness_trans].
  rewrite bind_eq. unfold new_client. rewrite bind_eq.
  set (w3 := set_clients _ w2).
  pose proof (store_keeps_liveness self
                (set__client (Some (length (clients w2)))) w3 (λ _, eq_refl))
    as Hs.
  eapply keeps_liveness_trans; [exact Hh|].
  eapply keeps_liveness_trans; [exact Hp|].
  destruct (store self (set__client (Some (length (clients w2)))) w3)
    as [[[]|e] w4]; exact Hs.
Qed.

Lemma deliveries_keep_dead (l : list ZooKeeper.watcher) : ∀ w,
  registry_wf w →
  keeps_dead w (foldl (λ w x, deliver x w) w l).
Proof.
  induction l as [|x l IH]; intros w Hwf; simpl.
  - intros r b Hb Hd. eauto.
  - eapply keeps_dead_trans; [|apply IH, deliver_frame, Hwf].
    destruct x as [|self]; simpl.
    + destruct (BrokerMap_configure_frame w Hwf) as [_ _ _ Hheap _].
      intros r b Hb Hd. destruct (Hheap r b Hb) as [-> | ->]; eauto.
    + apply keeps_liveness_dead, Broker_configure_keeps_liveness.
Qed.

Lemma happen_keeps_dead (e : event) (w : World) :
  registry_wf w → keeps_dead w (happen e w).
Proof.
  intros Hwf. destruct e as [r|r|r| |x|path node|r]; simpl.
  - apply keeps_liveness_dead, Broker_configured_keeps_liveness,
      read_attribute.
  - apply keeps_liveness_dead, Broker_configured_keeps_liveness,
      read_attribute.
  - apply keeps_liveness_dead, Broker_client_keeps_liveness.
  - unfold BrokerMap.__len__. rewrite BrokerMap_configured_eq.
    assert (Hpass : keeps_dead w (snd (BrokerMap._configure
                                         (set_map_state Configuring w)))).
    { destruct (BrokerMap_configure_frame (set_map_state Configuring w) Hwf)
        as [_ _ _ Hheap _].
      intros r b Hb Hd. destruct (Hheap r b Hb) as [-> | ->]; eauto. }
    destruct (map_state w); simpl;
      try (intros r b Hb Hd; by eauto);
      by destruct (BrokerMap._configure (set_map_state Configuring w))
        as [[[]|e] w'].
  - apply (deliveries_keep_dead [x] w Hwf).
  - unfold remote_change.
    apply (deliveries_keep_dead (ZooKeeper.fired path (zookeeper w))
             (set_zookeeper (ZooKeeper.change path node (zookeeper w)) w) Hwf).
  - intros r0 b Hb Hd. unfold store.
    destruct (heap w !! r) as [b0|] eqn:Hr; simpl; [|eauto].
    destruct (decide (r = r0)) as [->|Hne].
    + exists (set_is_dead true b0). split; [|done].
      apply list_lookup_insert_eq. by eapply lookup_lt_Some.
    + exists b. by rewrite list_lookup_insert_ne.
Qed.

(** X15. Nothing revives a broker.  Once [is_dead] is set on an object,
    it is set after any history of reads of hosts, ports, clients and the
    registry, of passes, of remote changes with their deliveries, and of
    markings: the only assignment of [False] to [is_dead] is the one in
    the constructor. *)
Theorem dead_brokers_stay_dead
    (w : World) (es : list event) (r : nat) (b : BrokerObject) :
  registry_wf w →
  heap w !! r = Some b →
  is_dead b = true →
  ∃ b', heap (run es w) !! r = Some b' ∧ is_dead b' = true.
Proof.
  revert w b. induction es as [|e es IH]; intros w b Hwf Hb Hd.
  - exists b. by split.
  - unfold run. simpl. fold (run es (happen e w)).
    destruct (happen_invariant e w Hwf) as [Hwf1 _].
    destruct (happen_keeps_dead e w Hwf r b Hb Hd) as (b1 & Hb1 & Hd1).
    by apply (IH (happen e w) b1).
Qed.

Lemma dead_brokers_stay_dead_witness :
  ∃ b', heap (run [RemoteChange "/brokers/ids"
                     (Some (ZooKeeper.Znode "" ["1"; "2"]));
                   ReadHost 0; ReadClient 0]
                (snd (BrokerMap._configure example_world_left))) !! 0%nat
        = Some b' ∧
        is_dead b' = true.
Proof.
  apply (dead_brokers_stay_dead
           (snd (BrokerMap._configure example_world_left))
           [RemoteChange "/brokers/ids" (Some (ZooKeeper.Znode "" ["1"; "2"]));
            ReadHost 0; ReadClient 0]
           0
           {| id := 1; _Broker__host := Some "10.0.0.5"%string;
              _Broker__port := Some 9092; is_dead := true;
              _Broker__client := None; broker_state := Configured |}).
  - apply (bool_decide_unpack
             (registry_wf (snd (BrokerMap._configure example_world_left)))).
    vm_compute. exact I.
  - vm_compute. reflexivity.
  - reflexivity.
Defined.

(** ** A watch that is lost *)

Lemma fired_after_change path node zk :
  ZooKeeper.fired path (ZooKeeper.change path node zk) = [].
Proof.
  unfold ZooKeeper.fired, ZooKeeper.change. simpl.
  assert (Hempty : filter (λ pw : string * ZooKeeper.watcher, pw.1 = path)
                     (filter (λ pw : string * ZooKeeper.watcher, pw.1 ≠ path)
                        (ZooKeeper.watches zk)) = ∅).
  { apply set_eq. intros pw. rewrite !elem_of_filter, elem_of_empty.
    split; [intros (? & ? & _); done|done]. }
  by rewrite Hempty, elements_empty.
Qed.

Lemma fired_asked_missing (w : World) :
  ZooKeeper.nodes (zookeeper w) !! "/brokers/ids"%string = None →
  ZooKeeper.fired "/brokers/ids" (zookeeper (asked_children w))
  = ZooKeeper.fired "/brokers/ids" (zookeeper w).
Proof.
  intros Hz. unfold asked_children, ZooKeeper.get_children. simpl.
  by rewrite Hz.
Qed.

(** X16. When /brokers/ids is deleted, the pass that the watch triggers
    raises before it has looked at the dictionary and leaves no watch
    behind: the registry and its brokers are as they were, nobody is to be
    notified at the path any more, and a later change there (the path
    being created again, say) reaches nobody and changes nothing in the
    registry. *)
Theorem BrokerMap_watch_lost_with_root
    (w : World) (node : option ZooKeeper.znode) :
  registry_watches_only "/brokers/ids" (zookeeper w) →
  ZooKeeper.fired "/brokers/ids"
    (zookeeper (remote_change "/brokers/ids" None w)) = [] ∧
  _BrokerMap__brokers (remote_change "/brokers/ids" None w)
  = _BrokerMap__brokers w ∧
  heap (remote_change "/brokers/ids" None w) = heap w ∧
  _BrokerMap__brokers
    (remote_change "/brokers/ids" node (remote_change "/brokers/ids" None w))
  = _BrokerMap__brokers w ∧
  heap (remote_change "/brokers/ids" node
          (remote_change "/brokers/ids" None w))
  = heap w.
Proof.
  intros Honly.
  set (root := "/brokers/ids"%string) in *.
  set (I := λ s : World,
         ZooKeeper.nodes (zookeeper s) !! root = None ∧
         ZooKeeper.fired root (zookeeper s) = [] ∧
         _BrokerMap__brokers s = _BrokerMap__brokers w ∧
         heap s = heap w).
  assert (Hloop : ∀ l, Forall (λ x, x = ZooKeeper.WatchBrokerMap) l →
            ∀ s, I s → I (foldl (λ s x, deliver x s) s l)).
  { intros l Hl. induction Hl as [|x l -> _ IH]; intros s Hs; [done|].
    simpl foldl. apply IH. destruct Hs as (Hz & Hf & Hm & Hh).
    unfold deliver. rewrite (BrokerMap_configure_no_node s Hz).
    unfold I, root in *. cbn [snd].
    split; [by rewrite asked_children_nodes|].
    split; [by rewrite (fired_asked_missing s Hz)|done]. }
  assert (H1 : I (remote_change root None w)).
  { unfold remote_change. apply Hloop; [exact Honly|].
    unfold I. simpl. split; [by rewrite lookup_delete_eq|].
    split; [apply fired_after_change|done]. }
  destruct H1 as (_ & Hf & Hm & Hh).
  split; [done|]. split; [done|]. split; [done|].
  unfold remote_change at 1 3. rewrite Hf. simpl. done.
Qed.

Lemma BrokerMap_watch_lost_with_root_witness :
  ZooKeeper.fired "/brokers/ids"
    (zookeeper (remote_change "/brokers/ids" None example_world_read)) = [] ∧
  _BrokerMap__brokers (remote_change "/brokers/ids" None example_world_read)
  = _BrokerMap__brokers example_world_read ∧
  heap (remote_change "/brokers/ids" None example_world_read)
  = heap example_world_read ∧
  _BrokerMap__brokers
    (remote_change "/brokers/ids" (Some (ZooKeeper.Znode "" ["2"; "3"]))
       (remote_change "/brokers/ids" None example_world_read))
  = _BrokerMap__brokers example_world_read ∧
  heap (remote_change "/brokers/ids" (Some (ZooKeeper.Znode "" ["2"; "3"]))
          (remote_change "/brokers/ids" None example_world_read))
  = heap example_world_read.
Proof.
  apply (BrokerMap_watch_lost_with_root example_world_read
           (Some (ZooKeeper.Znode "" ["2"; "3"]))).
  apply (bool_decide_unpack
           (registry_watches_only "/brokers/ids" (zookeeper example_world_read))).
  vm_compute. exact I.
Defined.

(** ** Passes that change nothing, passes that empty the registry *)

(** X17. [Broker._configure] run twice in a row, whatever the node holds:
    the second run has the outcome of the first (it returns, or raises the
    same exception) and leaves every broker object as the first run left
    it. *)
Theorem Broker_configure_idempotent
    (w : World) (self : nat) (b : BrokerObject) :
  heap w !! self = Some b →
  fst (Broker._configure self (snd (Broker._configure self w)))
  = fst (Broker._configure self w) ∧
  heap (snd (Broker._configure self (snd (Broker._configure self w))))
  = heap (snd (Broker._configure self w)).
Proof.
  intros Hself.
  assert (Hlt : (self < length (heap w))%nat) by (by eapply lookup_lt_Some).
  destruct (ZooKeeper.nodes (zookeeper w)
              !! ("/brokers/ids/" +:+ Py.str (id b))%string) as [z|] eqn:Hz.
  2:{ rewrite (Broker_configure_no_node w self b Hself Hz). simpl.
      set (asked := set_zookeeper _ w).
      rewrite (Broker_configure_no_node asked self b Hself); [done|].
      unfold asked. simpl. by rewrite get_nodes. }
  rewrite (Broker_configure_fetch w self b Hself z Hz).
  set (asked := set_zookeeper _ w).
  assert (Hz' : ∀ h, ZooKeeper.nodes (zookeeper (set_heap h asked))
                       !! ("/brokers/ids/" +:+ Py.str (id b))%string = Some z).
  { intros h. unfold asked. simpl. by rewrite get_nodes. }
  destruct (Py.split ":" (ZooKeeper.data z))
    as [|creator [|host [|port [|]]]] eqn:Hsplit;
    try (simpl; rewrite (Broker_configure_fetch asked self b Hself z (Hz' (heap w))),
           Hsplit; done).
  destruct (Py.int_of_str port) as [p|] eqn:Hport; cbn [fst snd].
  - set (b1 := set__port (Some p) (set__host (Some host) b)).
    set (w1 := set_heap (<[self := b1]> (heap w)) asked).
    assert (Hself1 : heap w1 !! self = Some b1)
      by (by apply list_lookup_insert_eq).
    pose proof (Broker_configure_fetch w1 self b1 Hself1 z (Hz' _)) as H2.
    rewrite Hsplit, Hport in H2. rewrite H2. cbn [fst snd].
    split; [done|]. unfold w1. simpl. by rewrite list_insert_insert_eq.
  - set (b1 := set__host (Some host) b).
    set (w1 := set_heap (<[self := b1]> (heap w)) asked).
    assert (Hself1 : heap w1 !! self = Some b1)
      by (by apply list_lookup_insert_eq).
    pose proof (Broker_configure_fetch w1 self b1 Hself1 z (Hz' _)) as H2.
    rewrite Hsplit, Hport in H2. rewrite H2. cbn [fst snd].
    split; [done|]. unfold w1. simpl. by rewrite list_insert_insert_eq.
Qed.

Lemma Broker_configure_idempotent_witness :
  fst (Broker._configure 1 (snd (Broker._configure 1 example_world)))
  = fst (Broker._configure 1 example_world) ∧
  heap (snd (Broker._configure 1 (snd (Broker._configure 1 example_world))))
  = heap (snd (Broker._configure 1 example_world)).
Proof.
  apply (Broker_configure_idempotent example_world 1 (fresh_broker 2)).
  vm_compute. reflexivity.
Defined.

(** X18. When /brokers/ids exists and has no children, the pass returns
    normally and empties the registry: the dictionary is empty, and every
    broker it held is the same object, marked dead.  (A missing path
    raises instead.) *)
Theorem BrokerMap_configure_no_children (w : World) (z : ZooKeeper.znode) :
  registry_wf w →
  ZooKeeper.nodes (zookeeper w) !! "/brokers/ids"%string = Some z →
  ZooKeeper.children z = [] →
  ∃ w',
    BrokerMap._configure w = (Return tt, w') ∧
    _BrokerMap__brokers w' = ∅ ∧
    (∀ k r b, _BrokerMap__brokers w !! k = Some r →
              heap w !! r = Some b →
              heap w' !! r = Some (set_is_dead true b)).
Proof.
  intros Hwf Hz Hnone.
  assert (Hids : ids_of (ZooKeeper.children z) = Some []) by (by rewrite Hnone).
  destruct (BrokerMap_configure_pass w z [] Hwf Hz Hids)
    as (w' & Hrun & [_ _ _ Hdom _ Hrem _ _ _]).
  exists w'. split; [done|]. split; [by apply dom_empty_inv_L|].
  intros k r b Hk Hb. apply (Hrem k r b Hk Hb).
  intros Hin. by apply elem_of_nil in Hin.
Qed.

Lemma BrokerMap_configure_no_children_witness :
  ∃ w',
    BrokerMap._configure example_world_emptied = (Return tt, w') ∧
    _BrokerMap__brokers w' = ∅ ∧
    (∀ k r b, _BrokerMap__brokers example_world_emptied !! k = Some r →
              heap example_world_emptied !! r = Some b →
              heap w' !! r = Some (set_is_dead true b)).
Proof.
  apply (BrokerMap_configure_no_children example_world_emptied
           (ZooKeeper.Znode "" [])).
  - apply (bool_decide_unpack (registry_wf example_world_emptied)).
    vm_compute. exact I.
  - vm_compute. reflexivity.
  - reflexivity.
Defined.
